(** * SchemaGenie: the schema-generation endpoint and its client

    A shallow embedding of [client/pages/Index.tsx] (the submission form and
    the diagram decoding rule) and of the Express handler
    [handleGenerateSchema] with its canned texts, followed by the properties
    of the request/response contract.

    Conventions.
    - A JavaScript string is a Rocq [string], a sequence of bytes.  Every text
      the server holds is 7-bit (lemma [texts_are_ascii]), so UTF-8
      encoding ([Buffer.from]) and the Latin-1 reading of [atob] are both the
      identity on them.
    - A request body is any JSON value, or [JUndefined] when no body was
      parsed; well-typed requests are the record [SchemaGenerationRequest].
    - The handler runs in a small state-and-exception monad over the
      observable world: the response object, the clock and the error log. *)

From Stdlib Require Import List String Ascii Bool NArith ZArith Lia.
Import ListNotations.
Set Warnings "-register-all".
Local Open Scope string_scope.

(** ** Text helpers *)

Definition dq : string := String (ascii_of_nat 34) EmptyString.
Definition nl : string := String (ascii_of_nat 10) EmptyString.

(** A template literal written over several lines: the lines joined by LF. *)
Definition unlines (ls : list string) : string := String.concat nl ls.

(** [s.startsWith(p)] *)
Definition startsWith (s p : string) : bool := String.prefix p s.

(** [s.split(sep)] for a one-character separator. *)
Fixpoint split_acc (sep : ascii) (cur : list ascii) (s : list ascii) : list string :=
  match s with
  | [] => [string_of_list_ascii (rev cur)]
  | c :: r =>
      if Ascii.eqb c sep
      then string_of_list_ascii (rev cur) :: split_acc sep [] r
      else split_acc sep (c :: cur) r
  end.

Definition split (sep : ascii) (s : string) : list string :=
  split_acc sep [] (list_ascii_of_string s).

Definition is_7bit (c : ascii) : bool := (N_of_ascii c <? 128)%N.

Definition ascii_text (s : string) : bool :=
  forallb is_7bit (list_ascii_of_string s).

(** ** JavaScript values and the operations the handler applies to them *)

Module Js.

(** JSON values, [undefined], and function objects (the latter only arise
    as inherited members of [Object.prototype]).  A number is carried by its
    canonical [String(n)] rendering: the handler can observe a number only
    through its truthiness and through property-key conversion, and both
    are functions of that rendering. *)
Inductive JsValue : Type :=
| JUndefined
| JNull
| JBool (b : bool)
| JNum (rendering : string)
| JStr (s : string)
| JArr (items : list JsValue)
| JObj (props : list (string * JsValue))
| JFun (name : string).

(** The exceptions that can be thrown along the modelled paths.  Messages
    are engine specific and never reach a response, so they are left out. *)
Inductive Exn : Type :=
| TypeError
| InvalidCharacterError.

Inductive Outcome (A : Type) : Type :=
| Returned (a : A)
| Thrown (e : Exn).
Arguments Returned {A} a.
Arguments Thrown {A} e.

Definition nullish (v : JsValue) : bool :=
  match v with
  | JUndefined | JNull => true
  | _ => false
  end.

(** [ToBoolean]: what [!v] and [if (v)] test. *)
Definition truthy (v : JsValue) : bool :=
  match v with
  | JUndefined | JNull => false
  | JBool b => b
  | JNum r => negb (String.eqb r "0" || String.eqb r "NaN")
  | JStr s => negb (String.eqb s EmptyString)
  | JArr _ | JObj _ | JFun _ => true
  end.

Fixpoint own (props : list (string * JsValue)) (k : string) : option JsValue :=
  match props with
  | [] => None
  | (k', v) :: rest => if String.eqb k' k then Some v else own rest k
  end.

(** Members every ordinary object inherits from [Object.prototype]. *)
Definition object_prototype_methods : list string :=
  [ "constructor"; "hasOwnProperty"; "isPrototypeOf"; "propertyIsEnumerable";
    "toLocaleString"; "toString"; "valueOf";
    "__defineGetter__"; "__defineSetter__"; "__lookupGetter__"; "__lookupSetter__" ].

Definition object_prototype_get (k : string) : JsValue :=
  if existsb (String.eqb k) object_prototype_methods then JFun k
  else if String.eqb k "__proto__" then JObj []   (* [Object.prototype] itself: no enumerable member *)
  else JUndefined.

(** [v[k]] for a string key.  On [undefined] and [null] the read throws.  On
    an object it is the own property, else the inherited one.  On arrays,
    strings, numbers and booleans the model answers [undefined]: it is
    exact for every name the handler reads there ([inputCode], [inputType],
    [options], [outputFormat], [databaseType], [suggestAPI], [generateERD]),
    none of which is an index, [length] or a built-in member. *)
Definition get (v : JsValue) (k : string) : Outcome JsValue :=
  match v with
  | JUndefined | JNull => Thrown TypeError
  | JObj props =>
      match own props k with
      | Some x => Returned x
      | None => Returned (object_prototype_get k)
      end
  | _ => Returned JUndefined
  end.

Definition join_with (sep : string) (parts : list string) : string :=
  String.concat sep parts.

(** [ToPropertyKey] on the values a parsed body can hold.  An array is
    joined with commas ([null] and [undefined] items render empty); an
    object renders through [Object.prototype.toString] unless it shadows
    [toString] with an own property, which no JSON value makes callable, so
    the conversion throws. *)
Fixpoint toPropertyKey (v : JsValue) : Outcome string :=
  match v with
  | JUndefined => Returned "undefined"
  | JNull => Returned "null"
  | JBool true => Returned "true"
  | JBool false => Returned "false"
  | JNum r => Returned r
  | JStr s => Returned s
  | JFun name => Returned name
  | JObj props =>
      match own props "toString" with
      | Some _ => Thrown TypeError
      | None => Returned "[object Object]"
      end
  | JArr items =>
      (fix items_text (l : list JsValue) (acc : list string) : Outcome string :=
         match l with
         | [] => Returned (join_with "," (rev acc))
         | x :: r =>
             if nullish x then items_text r (EmptyString :: acc)
             else match toPropertyKey x with
                  | Returned s => items_text r (s :: acc)
                  | Thrown e => Thrown e
                  end
         end) items []
  end.

(** [obj[key]] with a computed key. *)
Definition get_computed (obj key : JsValue) : Outcome JsValue :=
  match toPropertyKey key with
  | Returned k => get obj k
  | Thrown e => Thrown e
  end.

(** [obj.k = v] on an ordinary object: overwrite in place or append. *)
Fixpoint put (props : list (string * JsValue)) (k : string) (v : JsValue)
  : list (string * JsValue) :=
  match props with
  | [] => [(k, v)]
  | (k', v') :: rest =>
      if String.eqb k' k then (k', v) :: rest else (k', v') :: put rest k v
  end.

Definition set (obj : JsValue) (k : string) (v : JsValue) : JsValue :=
  match obj with
  | JObj props => JObj (put props k v)
  | _ => obj
  end.

(** What [JSON.stringify] keeps of a value: members holding [undefined] or a
    function are dropped from objects and become [null] in arrays. *)
Fixpoint wire (v : JsValue) : JsValue :=
  match v with
  | JObj props =>
      JObj ((fix members (l : list (string * JsValue)) : list (string * JsValue) :=
               match l with
               | [] => []
               | (k, x) :: r =>
                   match x with
                   | JUndefined | JFun _ => members r
                   | _ => (k, wire x) :: members r
                   end
               end) props)
  | JArr items =>
      JArr ((fix elements (l : list JsValue) : list JsValue :=
               match l with
               | [] => []
               | x :: r =>
                   match x with
                   | JUndefined | JFun _ => JNull :: elements r
                   | _ => wire x :: elements r
                   end
               end) items)
  | JFun _ => JUndefined
  | _ => v
  end.

(** Field of a JSON object as received: [None] when the member is absent. *)
Definition field (v : JsValue) (k : string) : option JsValue :=
  match v with
  | JObj props => own props k
  | _ => None
  end.

End Js.

(** ** Base64: [Buffer#toString('base64')] and the browser's [atob] *)

Module Base64.

Local Open Scope N_scope.

Definition alphabet : list ascii :=
  list_ascii_of_string
    "ABCDEFGHIJKLMNOPQRSTUVWXYZabcdefghijklmnopqrstuvwxyz0123456789+/".

Definition pad_char : ascii := "="%char.

Definition char_of_sextet (n : N) : ascii := nth (N.to_nat n) alphabet pad_char.

Fixpoint index_of (c : ascii) (l : list ascii) (i : N) : option N :=
  match l with
  | [] => None
  | x :: r => if Ascii.eqb x c then Some i else index_of c r (i + 1)
  end.

Definition sextet_of_char (c : ascii) : option N := index_of c alphabet 0.

(** Three bytes make four sextets; a final group of one or two bytes makes
    two or three, the missing low bits being zero. *)
Fixpoint encode_sextets (bs : list ascii) : list N :=
  match bs with
  | [] => []
  | [a] =>
      let x := N_of_ascii a in
      [x / 4; (x mod 4) * 16]
  | [a; b] =>
      let x := N_of_ascii a in
      let y := N_of_ascii b in
      [x / 4; (x mod 4) * 16 + y / 16; (y mod 16) * 4]
  | a :: b :: c :: rest =>
      let x := N_of_ascii a in
      let y := N_of_ascii b in
      let z := N_of_ascii c in
      x / 4 :: (x mod 4) * 16 + y / 16 :: (y mod 16) * 4 + z / 64 :: z mod 64
        :: encode_sextets rest
  end.

Definition padding (len : nat) : list ascii :=
  match Nat.modulo len 3 with
  | 1%nat => [pad_char; pad_char]
  | 2%nat => [pad_char]
  | _ => []
  end.

(** The characters of the groups, before padding. *)
Definition body (bs : list ascii) : list ascii := map char_of_sextet (encode_sextets bs).

(** [Buffer.from(s).toString('base64')] *)
Definition encode (s : string) : string :=
  let bs := list_ascii_of_string s in
  string_of_list_ascii (body bs ++ padding (List.length bs)).

(** The decoder is the forgiving-base64 decode of the HTML standard, which
    [atob] runs: ASCII whitespace is removed, one or two trailing [=] are
    removed when the length is a multiple of four, a length of 1 modulo 4 or
    a character outside the alphabet is an error, and left-over bits of a
    final partial group are discarded. *)
Definition is_ascii_whitespace (c : ascii) : bool :=
  let n := N_of_ascii c in
  (n =? 9) || (n =? 10) || (n =? 12) || (n =? 13) || (n =? 32).

Definition drop_last_pad (d : list ascii) : option (list ascii) :=
  match rev d with
  | c :: r => if Ascii.eqb c pad_char then Some (rev r) else None
  | [] => None
  end.

Definition strip_padding (d : list ascii) : list ascii :=
  match drop_last_pad d with
  | None => d
  | Some d1 =>
      match drop_last_pad d1 with
      | None => d1
      | Some d2 => d2
      end
  end.

Fixpoint sextets (d : list ascii) : option (list N) :=
  match d with
  | [] => Some []
  | c :: r =>
      match sextet_of_char c, sextets r with
      | Some n, Some ns => Some (n :: ns)
      | _, _ => None
      end
  end.

Fixpoint decode_sextets (ss : list N) : list ascii :=
  match ss with
  | p :: q :: r :: s :: rest =>
      ascii_of_N (p * 4 + q / 16)
        :: ascii_of_N ((q mod 16) * 16 + r / 4)
        :: ascii_of_N ((r mod 4) * 64 + s)
        :: decode_sextets rest
  | [p; q; r] =>
      [ascii_of_N (p * 4 + q / 16); ascii_of_N ((q mod 16) * 16 + r / 4)]
  | [p; q] => [ascii_of_N (p * 4 + q / 16)]
  | _ => []
  end.

Definition decode (data : string) : option string :=
  let d := filter (fun c => negb (is_ascii_whitespace c)) (list_ascii_of_string data) in
  let d := if Nat.eqb (Nat.modulo (List.length d) 4) 0 then strip_padding d else d in
  if Nat.eqb (Nat.modulo (List.length d) 4) 1 then None
  else match sextets d with
       | Some ss => Some (string_of_list_ascii (decode_sextets ss))
       | None => None
       end.

(** [atob(data)]: an [InvalidCharacterError] where the decoder fails. *)
Definition atob (data : string) : Js.Outcome string :=
  match decode data with
  | Some s => Js.Returned s
  | None => Js.Thrown Js.InvalidCharacterError
  end.

(** The sixty-four sextets, and the characters that are neither whitespace,
    padding nor a comma, for the facts about the alphabet. *)
Definition all_sextets : list N := map N.of_nat (seq 0 64).

Definition plain_char (c : ascii) : bool :=
  negb (is_ascii_whitespace c) && negb (Ascii.eqb c pad_char) && negb (Ascii.eqb c ","%char).

End Base64.

(** ** The wire contract: [SchemaGenerationRequest] *)

Module Wire.

Inductive InputType : Type := it_react | it_html | it_json | it_figma.
Inductive OutputFormat : Type := of_prisma | of_sql | of_mongodb | of_firebase.
Inductive DatabaseType : Type := db_postgresql | db_mysql | db_mongodb | db_firebase.

Definition InputType_tag (t : InputType) : string :=
  match t with
  | it_react => "react" | it_html => "html" | it_json => "json" | it_figma => "figma"
  end.

Definition OutputFormat_tag (f : OutputFormat) : string :=
  match f with
  | of_prisma => "prisma" | of_sql => "sql" | of_mongodb => "mongodb" | of_firebase => "firebase"
  end.

Definition DatabaseType_tag (d : DatabaseType) : string :=
  match d with
  | db_postgresql => "postgresql" | db_mysql => "mysql"
  | db_mongodb => "mongodb" | db_firebase => "firebase"
  end.

Record Options : Type := {
  outputFormat : OutputFormat;
  databaseType : DatabaseType;
  suggestAPI : bool;
  generateERD : bool
}.

Record SchemaGenerationRequest : Type := {
  inputCode : string;
  inputType : InputType;
  options : Options
}.

(** The body the server parses out of [JSON.stringify(payload)]. *)
Definition body_of (r : SchemaGenerationRequest) : Js.JsValue :=
  Js.JObj
    [ ("inputCode", Js.JStr (inputCode r));
      ("inputType", Js.JStr (InputType_tag (inputType r)));
      ("options",
        Js.JObj
          [ ("outputFormat", Js.JStr (OutputFormat_tag (outputFormat (options r))));
            ("databaseType", Js.JStr (DatabaseType_tag (databaseType (options r))));
            ("suggestAPI", Js.JBool (suggestAPI (options r)));
            ("generateERD", Js.JBool (generateERD (options r))) ]) ].

End Wire.

(** ** The server: canned texts and [handleGenerateSchema] *)

Module Server.

Import Js Wire.

Definition schema_prisma : string :=
  unlines [
    "generator client {";
    "  provider = " ++ dq ++ "prisma-client-js" ++ dq;
    "}";
    EmptyString;
    "datasource db {";
    "  provider = " ++ dq ++ "postgresql" ++ dq;
    "  url      = env(" ++ dq ++ "DATABASE_URL" ++ dq ++ ")";
    "}";
    EmptyString;
    "model User {";
    "  id        String   @id @default(cuid())";
    "  email     String   @unique";
    "  name      String?";
    "  createdAt DateTime @default(now())";
    "  updatedAt DateTime @updatedAt";
    "  posts     Post[]";
    "  profile   Profile?";
    "}";
    EmptyString;
    "model Profile {";
    "  id     String  @id @default(cuid())";
    "  bio    String?";
    "  avatar String?";
    "  userId String  @unique";
    "  user   User    @relation(fields: [userId], references: [id])";
    "}";
    EmptyString;
    "model Post {";
    "  id        String   @id @default(cuid())";
    "  title     String";
    "  content   String?";
    "  published Boolean  @default(false)";
    "  authorId  String";
    "  author    User     @relation(fields: [authorId], references: [id])";
    "  createdAt DateTime @default(now())";
    "  updatedAt DateTime @updatedAt";
    "}"
  ].

Definition schema_sql : string :=
  unlines [
    "CREATE TABLE users (";
    "  id SERIAL PRIMARY KEY,";
    "  email VARCHAR(255) UNIQUE NOT NULL,";
    "  name VARCHAR(255),";
    "  created_at TIMESTAMP DEFAULT NOW(),";
    "  updated_at TIMESTAMP DEFAULT NOW()";
    ");";
    EmptyString;
    "CREATE TABLE profiles (";
    "  id SERIAL PRIMARY KEY,";
    "  bio TEXT,";
    "  avatar VARCHAR(255),";
    "  user_id INTEGER UNIQUE REFERENCES users(id) ON DELETE CASCADE";
    ");";
    EmptyString;
    "CREATE TABLE posts (";
    "  id SERIAL PRIMARY KEY,";
    "  title VARCHAR(255) NOT NULL,";
    "  content TEXT,";
    "  published BOOLEAN DEFAULT false,";
    "  author_id INTEGER REFERENCES users(id) ON DELETE CASCADE,";
    "  created_at TIMESTAMP DEFAULT NOW(),";
    "  updated_at TIMESTAMP DEFAULT NOW()";
    ");"
  ].

Definition schema_mongodb : string :=
  unlines [
    "{";
    "  " ++ dq ++ "users" ++ dq ++ ": {";
    "    " ++ dq ++ "_id" ++ dq ++ ": " ++ dq ++ "ObjectId" ++ dq ++ ",";
    "    " ++ dq ++ "email" ++ dq ++ ": " ++ dq ++ "String (unique, required)" ++ dq ++ ",";
    "    " ++ dq ++ "name" ++ dq ++ ": " ++ dq ++ "String (optional)" ++ dq ++ ",";
    "    " ++ dq ++ "profile" ++ dq ++ ": {";
    "      " ++ dq ++ "bio" ++ dq ++ ": " ++ dq ++ "String (optional)" ++ dq ++ ",";
    "      " ++ dq ++ "avatar" ++ dq ++ ": " ++ dq ++ "String (optional)" ++ dq;
    "    },";
    "    " ++ dq ++ "createdAt" ++ dq ++ ": " ++ dq ++ "Date" ++ dq ++ ",";
    "    " ++ dq ++ "updatedAt" ++ dq ++ ": " ++ dq ++ "Date" ++ dq;
    "  },";
    "  " ++ dq ++ "posts" ++ dq ++ ": {";
    "    " ++ dq ++ "_id" ++ dq ++ ": " ++ dq ++ "ObjectId" ++ dq ++ ",";
    "    " ++ dq ++ "title" ++ dq ++ ": " ++ dq ++ "String (required)" ++ dq ++ ",";
    "    " ++ dq ++ "content" ++ dq ++ ": " ++ dq ++ "String (optional)" ++ dq ++ ",";
    "    " ++ dq ++ "published" ++ dq ++ ": " ++ dq ++ "Boolean (default: false)" ++ dq ++ ",";
    "    " ++ dq ++ "authorId" ++ dq ++ ": " ++ dq ++ "ObjectId (ref: users._id)" ++ dq ++ ",";
    "    " ++ dq ++ "createdAt" ++ dq ++ ": " ++ dq ++ "Date" ++ dq ++ ",";
    "    " ++ dq ++ "updatedAt" ++ dq ++ ": " ++ dq ++ "Date" ++ dq;
    "  }";
    "}"
  ].

Definition schema_firebase : string :=
  unlines [
    "{";
    "  " ++ dq ++ "users" ++ dq ++ ": {";
    "    " ++ dq ++ "rules" ++ dq ++ ": {";
    "      " ++ dq ++ "$uid" ++ dq ++ ": {";
    "        " ++ dq ++ ".read" ++ dq ++ ": " ++ dq ++ "$uid === auth.uid" ++ dq ++ ",";
    "        " ++ dq ++ ".write" ++ dq ++ ": " ++ dq ++ "$uid === auth.uid" ++ dq ++ ",";
    "        " ++ dq ++ ".validate" ++ dq ++ ": " ++ dq ++ "newData.hasChildren(['email', 'createdAt'])" ++ dq;
    "      }";
    "    },";
    "    " ++ dq ++ "structure" ++ dq ++ ": {";
    "      " ++ dq ++ "email" ++ dq ++ ": " ++ dq ++ "string" ++ dq ++ ",";
    "      " ++ dq ++ "name" ++ dq ++ ": " ++ dq ++ "string" ++ dq ++ ",";
    "      " ++ dq ++ "profile" ++ dq ++ ": {";
    "        " ++ dq ++ "bio" ++ dq ++ ": " ++ dq ++ "string" ++ dq ++ ",";
    "        " ++ dq ++ "avatar" ++ dq ++ ": " ++ dq ++ "string" ++ dq;
    "      },";
    "      " ++ dq ++ "createdAt" ++ dq ++ ": " ++ dq ++ "timestamp" ++ dq ++ ",";
    "      " ++ dq ++ "updatedAt" ++ dq ++ ": " ++ dq ++ "timestamp" ++ dq;
    "    }";
    "  },";
    "  " ++ dq ++ "posts" ++ dq ++ ": {";
    "    " ++ dq ++ "rules" ++ dq ++ ": {";
    "      " ++ dq ++ ".read" ++ dq ++ ": true,";
    "      " ++ dq ++ "$postId" ++ dq ++ ": {";
    "        " ++ dq ++ ".write" ++ dq ++ ": " ++ dq ++ "auth != null && auth.uid == data.child('authorId').val()" ++ dq;
    "      }";
    "    },";
    "    " ++ dq ++ "structure" ++ dq ++ ": {";
    "      " ++ dq ++ "title" ++ dq ++ ": " ++ dq ++ "string" ++ dq ++ ",";
    "      " ++ dq ++ "content" ++ dq ++ ": " ++ dq ++ "string" ++ dq ++ ",";
    "      " ++ dq ++ "published" ++ dq ++ ": " ++ dq ++ "boolean" ++ dq ++ ",";
    "      " ++ dq ++ "authorId" ++ dq ++ ": " ++ dq ++ "string" ++ dq ++ ",";
    "      " ++ dq ++ "createdAt" ++ dq ++ ": " ++ dq ++ "timestamp" ++ dq ++ ",";
    "      " ++ dq ++ "updatedAt" ++ dq ++ ": " ++ dq ++ "timestamp" ++ dq;
    "    }";
    "  }";
    "}"
  ].

Definition mockAPIRoutes : string :=
  unlines [
    "// User Routes";
    "POST   /api/users                 - Create user";
    "GET    /api/users/:id             - Get user by ID";
    "PUT    /api/users/:id             - Update user";
    "DELETE /api/users/:id             - Delete user";
    "GET    /api/users/:id/profile     - Get user profile";
    EmptyString;
    "// Post Routes";
    "GET    /api/posts                 - Get all posts";
    "POST   /api/posts                 - Create post";
    "GET    /api/posts/:id             - Get post by ID";
    "PUT    /api/posts/:id             - Update post";
    "DELETE /api/posts/:id             - Delete post";
    "GET    /api/posts/user/:userId    - Get posts by user";
    EmptyString;
    "// Authentication";
    "POST   /api/auth/login            - User login";
    "POST   /api/auth/logout           - User logout";
    "POST   /api/auth/register         - User registration";
    "GET    /api/auth/me               - Get current user"
  ].

Definition mockExplanation : string :=
  unlines [
    "Based on your frontend code analysis, I've identified the following data relationships and designed an optimal schema:";
    EmptyString;
    "**Key Entities Identified:**";
    "- **User**: Core entity representing app users with authentication";
    "- **Profile**: Extended user information with bio and avatar";
    "- **Post**: Content created by users with publishing status";
    EmptyString;
    "**Design Decisions:**";
    "1. **Normalized Structure**: Separated profile from user table to reduce data redundancy";
    "2. **Foreign Key Relationships**: Established proper relationships between users and posts";
    "3. **Indexing Strategy**: Email uniqueness constraint for authentication";
    "4. **Timestamps**: Added created/updated timestamps for audit trail";
    "5. **Soft Dependencies**: Profile is optional, allowing flexible user onboarding";
    EmptyString;
    "**Performance Considerations:**";
    "- Email field indexed for fast login queries";
    "- Author relationship indexed for efficient post retrieval";
    "- Optional fields allow for gradual data collection";
    EmptyString;
    "This schema supports scalability while maintaining data integrity and query performance."
  ].

Definition erDiagram_text : string :=
  unlines [
    "erDiagram";
    "    USER {";
    "        string id PK";
    "        string email UK";
    "        string name";
    "        datetime created_at";
    "        datetime updated_at";
    "    }";
    EmptyString;
    "    PROFILE {";
    "        string id PK";
    "        string bio";
    "        string avatar";
    "        string user_id FK";
    "    }";
    EmptyString;
    "    POST {";
    "        string id PK";
    "        string title";
    "        string content";
    "        boolean published";
    "        string author_id FK";
    "        datetime created_at";
    "        datetime updated_at";
    "    }";
    EmptyString;
    "    USER ||--o{ POST : " ++ dq ++ "creates" ++ dq;
    "    USER ||--|| PROFILE : " ++ dq ++ "has" ++ dq;
    EmptyString
  ].

(** [const mockSchemas = { prisma: ..., sql: ..., mongodb: ..., firebase: ... }] *)
Definition mockSchemas : JsValue :=
  JObj
    [ ("prisma", JStr schema_prisma);
      ("sql", JStr schema_sql);
      ("mongodb", JStr schema_mongodb);
      ("firebase", JStr schema_firebase) ].

(** The four-entry mapping read as a table over the format tags. *)
Definition canned (f : OutputFormat) : string :=
  match f with
  | of_prisma => schema_prisma
  | of_sql => schema_sql
  | of_mongodb => schema_mongodb
  | of_firebase => schema_firebase
  end.

(** [generateERDiagram(outputFormat, databaseType)]: both arguments are
    accepted and neither is read. *)
Definition generateERDiagram (outputFormat databaseType : JsValue) : string :=
  erDiagram_text.

(** *** The world a handler acts on *)

Record World : Type := {
  statusCode : nat;                  (* [res.statusCode] *)
  sent : list (nat * JsValue);       (* what [res.json] wrote, oldest first *)
  elapsed_ms : nat;                  (* time spent suspended on timers *)
  console : list (string * Exn)      (* [console.error] lines *)
}.

Definition fresh : World :=
  {| statusCode := 200; sent := []; elapsed_ms := 0; console := [] |}.

Definition M (A : Type) : Type := World -> Outcome A * World.

Definition ret {A} (a : A) : M A := fun w => (Returned a, w).

Definition bind {A B} (m : M A) (k : A -> M B) : M B :=
  fun w =>
    match m w with
    | (Returned a, w') => k a w'
    | (Thrown e, w') => (Thrown e, w')
    end.

Definition lift {A} (o : Outcome A) : M A := fun w => (o, w).

(** [try { body } catch (error) { handler }] *)
Definition try_catch {A} (body : M A) (handler : Exn -> M A) : M A :=
  fun w =>
    match body w with
    | (Returned a, w') => (Returned a, w')
    | (Thrown e, w') => handler e w'
    end.

Notation "x <- m ;; k" := (bind m (fun x => k))
  (at level 61, m at next level, right associativity).
Notation "m ;;; k" := (bind m (fun _ => k))
  (at level 61, right associativity).

(** [res.status(code)] *)
Definition res_status (code : nat) : M unit :=
  fun w => (Returned tt,
            {| statusCode := code; sent := sent w;
               elapsed_ms := elapsed_ms w; console := console w |}).

(** [res.json(value)]: the value is serialised and written with the current
    status code. *)
Definition res_json (value : JsValue) : M unit :=
  fun w => (Returned tt,
            {| statusCode := statusCode w;
               sent := sent w ++ [(statusCode w, wire value)];
               elapsed_ms := elapsed_ms w; console := console w |}).

(** [await new Promise(resolve => setTimeout(resolve, ms))] *)
Definition sleep (ms : nat) : M unit :=
  fun w => (Returned tt,
            {| statusCode := statusCode w; sent := sent w;
               elapsed_ms := elapsed_ms w + ms; console := console w |}).

(** [console.error(label, error)] *)
Definition console_error (label : string) (error : Exn) : M unit :=
  fun w => (Returned tt,
            {| statusCode := statusCode w; sent := sent w;
               elapsed_ms := elapsed_ms w; console := console w ++ [(label, error)] |}).

(** [const { inputCode, inputType, options } = req.body] *)
Definition destructure (body : JsValue) : M (JsValue * JsValue * JsValue) :=
  inputCode <- lift (get body "inputCode") ;;
  inputType <- lift (get body "inputType") ;;
  options <- lift (get body "options") ;;
  ret (inputCode, inputType, options).

Definition try_block (req_body : JsValue) : M unit :=
  fields <- destructure req_body ;;
  let '(inputCode, inputType, options) := fields in
  if negb (truthy inputCode) then
    res_status 400 ;;;
    res_json (JObj [("error", JStr "Input code is required")])
  else
    sleep 2000 ;;;
    format <- lift (get options "outputFormat") ;;
    schema <- lift (get_computed mockSchemas format) ;;
    let response := JObj [("schema", schema); ("explanation", JStr mockExplanation)] in
    wantRoutes <- lift (get options "suggestAPI") ;;
    let response :=
      if truthy wantRoutes then set response "apiRoutes" (JStr mockAPIRoutes)
      else response in
    wantDiagram <- lift (get options "generateERD") ;;
    response <-
      (if truthy wantDiagram then
         format' <- lift (get options "outputFormat") ;;
         database <- lift (get options "databaseType") ;;
         let erdDiagram := generateERDiagram format' database in
         ret (set response "erdImageUrl"
                (JStr ("data:text/plain;base64," ++ Base64.encode erdDiagram)))
       else ret response) ;;
    res_json response.

Definition catch_block (error : Exn) : M unit :=
  console_error "Schema generation error:" error ;;;
  res_status 500 ;;;
  res_json (JObj [("error", JStr "Failed to generate schema")]).

Definition handleGenerateSchema (req_body : JsValue) : M unit :=
  try_catch (try_block req_body) catch_block.

(** Serving one request on a fresh response object. *)
Definition serve (req_body : JsValue) : World :=
  snd (handleGenerateSchema req_body fresh).

(** The response the client receives: status code and JSON body.  The
    handler writes exactly one (lemma [one_response]). *)
Definition response (req_body : JsValue) : option (nat * JsValue) :=
  match sent (serve req_body) with
  | [r] => Some r
  | _ => None
  end.

End Server.

(** ** The client: the submission form and the diagram panel *)

Module Client.

Import Js.

(** The component state ([useState] cells); the uploaded file handle plays no
    part in what is submitted and is left out. *)
Record State : Type := {
  selectedInputType : Wire.InputType;
  inputCode : string;
  figmaUrl : string;
  outputFormat : Wire.OutputFormat;
  databaseType : Wire.DatabaseType;
  suggestAPI : bool;
  generateERD : bool;
  showExplanation : bool;
  isGenerating : bool;
  result : option JsValue
}.

Definition initial : State :=
  {| selectedInputType := Wire.it_react; inputCode := EmptyString; figmaUrl := EmptyString;
     outputFormat := Wire.of_prisma; databaseType := Wire.db_postgresql;
     suggestAPI := true; generateERD := true; showExplanation := false;
     isGenerating := false; result := None |}.

Definition is_figma (t : Wire.InputType) : bool :=
  match t with
  | Wire.it_figma => true
  | _ => false
  end.

(** The content buffer that belongs to the selected input kind. *)
Definition selected_content (st : State) : string :=
  if is_figma (selectedInputType st) then figmaUrl st else inputCode st.

(** [payload] of [handleGenerate]. *)
Definition payload (st : State) : Wire.SchemaGenerationRequest :=
  {| Wire.inputCode := selected_content st;
     Wire.inputType := selectedInputType st;
     Wire.options :=
       {| Wire.outputFormat := outputFormat st;
          Wire.databaseType := databaseType st;
          Wire.suggestAPI := suggestAPI st;
          Wire.generateERD := generateERD st |} |}.

(** [disabled={isGenerating || (!inputCode && !figmaUrl)}] *)
Definition submit_disabled (st : State) : bool :=
  isGenerating st
  || (negb (truthy (JStr (inputCode st))) && negb (truthy (JStr (figmaUrl st)))).

Definition setIsGenerating (b : bool) (st : State) : State :=
  {| selectedInputType := selectedInputType st; inputCode := inputCode st;
     figmaUrl := figmaUrl st; outputFormat := outputFormat st;
     databaseType := databaseType st; suggestAPI := suggestAPI st;
     generateERD := generateERD st; showExplanation := showExplanation st;
     isGenerating := b; result := result st |}.

Definition setResult (data : JsValue) (st : State) : State :=
  {| selectedInputType := selectedInputType st; inputCode := inputCode st;
     figmaUrl := figmaUrl st; outputFormat := outputFormat st;
     databaseType := databaseType st; suggestAPI := suggestAPI st;
     generateERD := generateERD st; showExplanation := showExplanation st;
     isGenerating := isGenerating st; result := Some data |}.

(** What the user can do to the form between submissions: each event is one
    of the component's setters, called from the tabs, the two text inputs,
    the two selects and the three switches. *)
Inductive Event : Type :=
| SelectInputType (t : Wire.InputType)
| EditInputCode (text : string)
| EditFigmaUrl (url : string)
| SelectOutputFormat (f : Wire.OutputFormat)
| SelectDatabaseType (d : Wire.DatabaseType)
| SwitchSuggestAPI (b : bool)
| SwitchGenerateERD (b : bool)
| SwitchShowExplanation (b : bool).

Definition on_event (st : State) (ev : Event) : State :=
  {| selectedInputType :=
       match ev with SelectInputType t => t | _ => selectedInputType st end;
     inputCode := match ev with EditInputCode text => text | _ => inputCode st end;
     figmaUrl := match ev with EditFigmaUrl url => url | _ => figmaUrl st end;
     outputFormat := match ev with SelectOutputFormat f => f | _ => outputFormat st end;
     databaseType := match ev with SelectDatabaseType d => d | _ => databaseType st end;
     suggestAPI := match ev with SwitchSuggestAPI b => b | _ => suggestAPI st end;
     generateERD := match ev with SwitchGenerateERD b => b | _ => generateERD st end;
     showExplanation :=
       match ev with SwitchShowExplanation b => b | _ => showExplanation st end;
     isGenerating := isGenerating st;
     result := result st |}.

Definition after (events : list Event) : State := fold_left on_event events initial.

(** [handleGenerate], with the exchange given as a function from the request
    to the parsed reply ([None]: the fetch or the JSON decoding failed, which
    is logged and leaves [result] as it was). *)
Definition handleGenerate
  (exchange : Wire.SchemaGenerationRequest -> option JsValue) (st : State) : State :=
  let st := setIsGenerating true st in
  let st :=
    match exchange (payload st) with
    | Some data => setResult data st
    | None => st
    end in
  setIsGenerating false st.

(** What a click on the button sends: nothing while it is disabled. *)
Definition click (st : State) : option Wire.SchemaGenerationRequest :=
  if submit_disabled st then None else Some (payload st).

(** The [chart] handed to [MermaidDiagram]:
    [url.startsWith('data:') ? atob(url.split(',')[1]) : url].
    A missing second part is [undefined], which [atob] reads as the text
    of that word. *)
Definition chart_of (erdImageUrl : string) : Outcome string :=
  if startsWith erdImageUrl "data:" then
    match nth_error (split ","%char erdImageUrl) 1 with
    | Some part => Base64.atob part
    | None => Base64.atob "undefined"
    end
  else Returned erdImageUrl.

End Client.

(** ** Diagram-description text

    The shape the spec asks of a diagram: entity blocks (a name, an opening
    brace, typed fields, a closing brace) and relationship lines (two entity
    names around a cardinality operator, a colon and a label). *)

Module Diagram.

Definition lines (s : string) : list string := split (ascii_of_nat 10) s.

Definition words (l : string) : list string :=
  filter (fun w => negb (String.eqb w EmptyString)) (split " "%char l).

Definition is_name_char (c : ascii) : bool :=
  let n := N_of_ascii c in
  ((65 <=? n) && (n <=? 90) || (97 <=? n) && (n <=? 122)
   || (48 <=? n) && (n <=? 57) || (n =? 95) || (n =? 45))%N.

Definition is_name (w : string) : bool :=
  negb (String.eqb w EmptyString) && forallb is_name_char (list_ascii_of_string w).

Definition opens_entity (l : string) : bool :=
  match words l with
  | [name; brace] => is_name name && String.eqb brace "{"
  | _ => false
  end.

Definition closes_entity (l : string) : bool :=
  match words l with
  | [brace] => String.eqb brace "}"
  | _ => false
  end.

Definition is_field (l : string) : bool :=
  match words l with
  | type :: name :: _ => is_name type && is_name name
  | _ => false
  end.

(** Typed fields up to the closing brace. *)
Fixpoint block_body (ls : list string) : bool :=
  match ls with
  | [] => false
  | l :: rest => closes_entity l || (is_field l && block_body rest)
  end.

Fixpoint has_entity_block (ls : list string) : bool :=
  match ls with
  | [] => false
  | l :: rest => (opens_entity l && block_body rest) || has_entity_block rest
  end.

Definition is_cardinality (op : string) : bool :=
  existsb (String.eqb (substring 0 2 op)) ["|o"; "||"; "}o"; "}|"]
  && existsb (String.eqb (substring 2 2 op)) ["--"; ".."]
  && existsb (String.eqb (substring 4 (String.length op - 4) op)) ["o|"; "||"; "o{"; "|{"].

Definition is_relationship (l : string) : bool :=
  match words l with
  | lhs :: op :: rhs :: colon :: _ :: _ =>
      is_name lhs && is_cardinality op && is_name rhs && String.eqb colon ":"
  | _ => false
  end.

Definition has_relationship (ls : list string) : bool := existsb is_relationship ls.

End Diagram.

(** ** The outcomes of a request

    The worlds the handler can leave behind, for stating what it does. *)

Module Outcomes.

Import Js Wire Server.

(** The value a successful read yields. *)
Definition read (v : JsValue) (k : string) : JsValue :=
  match v with
  | JObj props =>
      match own props k with
      | Some x => x
      | None => object_prototype_get k
      end
  | _ => JUndefined
  end.

(** The three ways a request ends. *)
Definition error_body (message : string) : JsValue := JObj [("error", JStr message)].

Definition rejected : World :=
  {| statusCode := 400;
     sent := [(400, error_body "Input code is required")];
     elapsed_ms := 0;
     console := [] |}.

Definition failed (elapsed : nat) (e : Exn) : World :=
  {| statusCode := 500;
     sent := [(500, error_body "Failed to generate schema")];
     elapsed_ms := elapsed;
     console := [("Schema generation error:", e)] |}.

Definition data_uri : string :=
  "data:text/plain;base64," ++ Base64.encode erDiagram_text.

Definition response_object (schema : JsValue) (routes diagram : bool) : JsValue :=
  let response := JObj [("schema", schema); ("explanation", JStr mockExplanation)] in
  let response :=
    if routes then set response "apiRoutes" (JStr mockAPIRoutes) else response in
  if diagram then set response "erdImageUrl" (JStr data_uri) else response.

Definition succeeded (schema : JsValue) (routes diagram : bool) : World :=
  {| statusCode := 200;
     sent := [(200, wire (response_object schema routes diagram))];
     elapsed_ms := 2000;
     console := [] |}.

(** The world while the handler is still working: nothing written yet. *)
Definition working (elapsed : nat) : World :=
  {| statusCode := 200; sent := []; elapsed_ms := elapsed; console := [] |}.

Definition reply (schema : JsValue) (routes diagram : bool) : JsValue :=
  wire (response_object schema routes diagram).

End Outcomes.

(** ** Requests and states used as examples *)

Import Js Wire Server Outcomes.

(** The members a generation result is made of. *)
Definition generation_fields : list string :=
  ["schema"; "apiRoutes"; "erdImageUrl"; "explanation"].

(** The end-to-end request of the spec: markup in, raw SQL out, routes and
    diagram wanted. *)
Definition request_sql : SchemaGenerationRequest :=
  {| inputCode := "<div>x</div>";
     inputType := it_html;
     options := {| outputFormat := of_sql; databaseType := db_postgresql;
                   suggestAPI := true; generateERD := true |} |}.

Definition options_of (format : string) (routes diagram : bool) : JsValue :=
  JObj [ ("outputFormat", JStr format);
         ("databaseType", JStr "postgresql");
         ("suggestAPI", JBool routes);
         ("generateERD", JBool diagram) ].

Definition request_with (code : JsValue) (opts : JsValue) : JsValue :=
  JObj [ ("inputCode", code); ("inputType", JStr "react"); ("options", opts) ].

Definition request_mongodb_a : JsValue :=
  JObj [ ("inputCode", JStr "<form><input name=email></form>");
         ("inputType", JStr "html");
         ("options",
           JObj [ ("outputFormat", JStr "mongodb"); ("databaseType", JStr "mongodb");
                  ("suggestAPI", JBool true); ("generateERD", JBool true) ]) ].

Definition request_mongodb_b : JsValue :=
  JObj [ ("inputCode", JStr "https://figma.com/file/abc");
         ("inputType", JStr "figma");
         ("options",
           JObj [ ("outputFormat", JStr "mongodb"); ("databaseType", JStr "mysql");
                  ("suggestAPI", JBool true); ("generateERD", JBool true) ]) ].

Definition request_graphql : JsValue :=
  request_with (JStr "<div>x</div>") (options_of "graphql" false false).

(** Markup is pasted on the first tab, then the design-reference tab is
    selected and its URL field left empty. *)
Definition stale_buffer_events : list Client.Event :=
  [ Client.EditInputCode "<div>x</div>"; Client.SelectInputType it_figma ].

Definition stale_buffer_state : Client.State := Client.after stale_buffer_events.

Definition is_object (v : JsValue) : bool :=
  match v with
  | JObj _ | JArr _ | JFun _ => true
  | _ => false
  end.

Definition request_numeric_options : JsValue :=
  JObj [ ("inputCode", JStr "<div>x</div>"); ("options", JNum "5") ].

Definition request_without_options : JsValue :=
  JObj [ ("inputCode", JStr "<div>x</div>"); ("inputType", JStr "html") ].

(** ** The output panels and the round trip through the server *)

Module Page.

Import Js.

(** [result?.k]: [undefined] while there is no result, or when the stored
    value is [null]; otherwise the member.  The four names read this way
    ([schema], [apiRoutes], [erdImageUrl], [explanation]) are no built-in
    member of any JSON value either. *)
Definition result_member (result : option JsValue) (k : string) : JsValue :=
  match result with
  | None => JUndefined
  | Some v =>
      match get v k with
      | Returned x => x
      | Thrown _ => JUndefined
      end
  end.

(** [a && <X/>]: the element when [a] is truthy, else [a] itself is the
    child. *)
Inductive Guarded : Type :=
| Mounted (v : JsValue)
| Skipped (falsy : JsValue).

(** The [chart] attribute: on a string the decoding rule; any other truthy
    value has no callable [startsWith], and the call throws. *)
Definition chart_prop (erdImageUrl : JsValue) : Outcome string :=
  match erdImageUrl with
  | JStr url => Client.chart_of url
  | _ => Thrown TypeError
  end.

(** [MermaidDiagram]: the text handed to [mermaid.render] once the
    component is mounted, nothing for an empty chart. *)
Definition MermaidDiagram (chart : string) : option string :=
  if truthy (JStr chart) then Some chart else None.

(** What the right-hand column shows.  [schema_panel] and [erd_panel] are
    [None] where the placeholder is drawn; [explanation_card] is [None] while
    the switch is off and [Some None] where its placeholder is drawn. *)
Record Panels : Type := {
  schema_panel : option JsValue;
  routes_panel : Guarded;
  erd_panel : option (Outcome string);
  explanation_card : option (option JsValue)
}.

Definition render (st : Client.State) : Panels :=
  let member := result_member (Client.result st) in
  {| schema_panel :=
       if truthy (member "schema") then Some (member "schema") else None;
     routes_panel :=
       if truthy (member "apiRoutes") then Mounted (member "apiRoutes")
       else Skipped (member "apiRoutes");
     erd_panel :=
       if truthy (member "erdImageUrl") then Some (chart_prop (member "erdImageUrl"))
       else None;
     explanation_card :=
       if Client.showExplanation st then
         Some (if truthy (member "explanation") then Some (member "explanation")
               else None)
       else None |}.

(** The exchange of [handleGenerate] when the request reaches the handler:
    [fetch] resolves on any status, and [response.json()] gives the body. *)
Definition via_server (r : Wire.SchemaGenerationRequest) : option JsValue :=
  option_map snd (Server.response (Wire.body_of r)).

(** The content buffer of the kind that is not selected. *)
Definition other_content (st : Client.State) : string :=
  if Client.is_figma (Client.selectedInputType st)
  then Client.inputCode st else Client.figmaUrl st.

End Page.

(** Flags sent as text: the routes flag is the string [false], the diagram
    flag the number 0. *)
Definition request_text_flags : JsValue :=
  JObj [ ("inputCode", JStr "<div>x</div>");
         ("options",
           JObj [ ("outputFormat", JStr "sql");
                  ("suggestAPI", JStr "false");
                  ("generateERD", JNum "0") ]) ].

(** The output format given as a one-element array. *)
Definition request_array_format : JsValue :=
  JObj [ ("inputCode", JStr "<div>x</div>");
         ("options", JObj [ ("outputFormat", JArr [JStr "sql"]) ]) ].

(** The [schema] member as [JSON.stringify] leaves it: dropped when the
    lookup gave [undefined] or a function. *)
Definition schema_member (schema : JsValue) : list (string * JsValue) :=
  match schema with
  | JUndefined | JFun _ => []
  | _ => [("schema", wire schema)]
  end.

(** * Properties *)

(** ** Lists three at a time *)

Lemma list_ind3 {A : Type} (P : list A -> Prop) :
  P [] ->
  (forall a, P [a]) ->
  (forall a b, P [a; b]) ->
  (forall a b c rest, P rest -> P (a :: b :: c :: rest)) ->
  forall l, P l.
Proof.
  intros H0 H1 H2 H3 l.
  assert (H : P l /\ (forall a, P (a :: l)) /\ (forall a b, P (a :: b :: l))).
  { induction l as [|c rest [IH0 [IH1 IH2]]].
    - repeat split; auto.
    - repeat split; auto. }
  apply H.
Qed.

(** ** Base64 round trip *)

Module Base64Facts.

Import Base64.
Local Open Scope N_scope.

(** Linear arithmetic over quotients and remainders of bytes. *)
Ltac byte_arith := zify; Z.to_euclidean_division_equations; lia.

Lemma in_all_sextets (n : N) : n < 64 -> In n all_sextets.
Proof.
  intros H. unfold all_sextets.
  rewrite <- (N2Nat.id n). apply in_map. apply in_seq. lia.
Qed.

Lemma sextet_of_char_of_sextet (n : N) :
  n < 64 -> sextet_of_char (char_of_sextet n) = Some n.
Proof.
  intros H.
  assert (A : forallb (fun m => match sextet_of_char (char_of_sextet m) with
                                | Some k => k =? m
                                | None => false
                                end) all_sextets = true) by (vm_compute; reflexivity).
  rewrite forallb_forall in A. specialize (A n (in_all_sextets n H)).
  destruct (sextet_of_char (char_of_sextet n)) as [k|]; [|discriminate].
  apply N.eqb_eq in A. now subst.
Qed.

Lemma char_of_sextet_plain (n : N) : n < 64 -> plain_char (char_of_sextet n) = true.
Proof.
  intros H.
  assert (A : forallb (fun m => plain_char (char_of_sextet m)) all_sextets = true)
    by (vm_compute; reflexivity).
  rewrite forallb_forall in A. exact (A n (in_all_sextets n H)).
Qed.

Lemma encode_sextets_bound (bs : list ascii) :
  Forall (fun n => n < 64) (encode_sextets bs).
Proof.
  induction bs as [| a | a b | a b c rest IH] using list_ind3; cbn [encode_sextets].
  - constructor.
  - pose proof (N_ascii_bounded a).
    repeat constructor; byte_arith.
  - pose proof (N_ascii_bounded a). pose proof (N_ascii_bounded b).
    repeat constructor; byte_arith.
  - pose proof (N_ascii_bounded a). pose proof (N_ascii_bounded b).
    pose proof (N_ascii_bounded c).
    repeat (constructor; [byte_arith|]). exact IH.
Qed.

Lemma sextets_of_chars (ss : list N) :
  Forall (fun n => n < 64) ss -> sextets (map char_of_sextet ss) = Some ss.
Proof.
  induction 1 as [| n ss Hn _ IH]; cbn [map sextets].
  - reflexivity.
  - rewrite (sextet_of_char_of_sextet n Hn), IH. reflexivity.
Qed.

(** A byte rebuilt from its sextet pieces. *)
Ltac rebuilt_byte a :=
  transitivity (ascii_of_N (N_of_ascii a));
  [ f_equal; byte_arith | apply ascii_N_embedding ].

Lemma decode_encode_sextets (bs : list ascii) :
  decode_sextets (encode_sextets bs) = bs.
Proof.
  induction bs as [| a | a b | a b c rest IH] using list_ind3.
  - reflexivity.
  - cbn [encode_sextets decode_sextets].
    pose proof (N_ascii_bounded a).
    f_equal. rebuilt_byte a.
  - cbn [encode_sextets decode_sextets].
    pose proof (N_ascii_bounded a). pose proof (N_ascii_bounded b).
    f_equal; [rebuilt_byte a | f_equal; rebuilt_byte b].
  - cbn [encode_sextets decode_sextets]. rewrite IH.
    pose proof (N_ascii_bounded a). pose proof (N_ascii_bounded b).
    pose proof (N_ascii_bounded c).
    f_equal; [rebuilt_byte a | f_equal; [rebuilt_byte b | f_equal; rebuilt_byte c]].
Qed.

Local Close Scope N_scope.

Lemma body_plain (bs : list ascii) : Forall (fun c => plain_char c = true) (body bs).
Proof.
  unfold body. apply Forall_map.
  eapply Forall_impl; [|apply encode_sextets_bound].
  intros n Hn. now apply char_of_sextet_plain.
Qed.

Lemma padding_step (n : nat) : padding (S (S (S n))) = padding n.
Proof.
  unfold padding.
  replace (S (S (S n))) with (n + 1 * 3) by lia.
  now rewrite Nat.Div0.mod_add.
Qed.

(** The three shapes of an encoding: whole groups, or a final group of one
    byte (two characters and two pads) or of two (three and one). *)
Lemma shape (bs : list ascii) :
  exists k : nat,
    (List.length (body bs) = k * 4 /\ padding (List.length bs) = [])
    \/ (List.length (body bs) = 2 + k * 4
        /\ padding (List.length bs) = [pad_char; pad_char])
    \/ (List.length (body bs) = 3 + k * 4 /\ padding (List.length bs) = [pad_char]).
Proof.
  unfold body.
  induction bs as [| a | a b | a b c rest [k IH]] using list_ind3.
  - exists 0. left. split; reflexivity.
  - exists 0. right. left. split; reflexivity.
  - exists 0. right. right. split; reflexivity.
  - exists (S k). cbn [encode_sextets map List.length].
    rewrite padding_step.
    destruct IH as [[L P] | [[L P] | [L P]]]; rewrite L, P;
      [left | right; left | right; right]; split; (reflexivity || lia).
Qed.

Lemma filter_all {A : Type} (f : A -> bool) (l : list A) :
  Forall (fun x => f x = true) l -> filter f l = l.
Proof.
  induction 1 as [| x l Hx _ IH]; cbn [filter].
  - reflexivity.
  - now rewrite Hx, IH.
Qed.

Lemma drop_last_pad_snoc (l : list ascii) : drop_last_pad (l ++ [pad_char]) = Some l.
Proof.
  unfold drop_last_pad. rewrite rev_app_distr. cbn [rev app].
  now rewrite Ascii.eqb_refl, rev_involutive.
Qed.

Lemma drop_last_pad_plain (l : list ascii) :
  Forall (fun c => plain_char c = true) l -> drop_last_pad l = None.
Proof.
  intros H. unfold drop_last_pad.
  destruct (rev l) as [| c r] eqn:E; [reflexivity|].
  assert (I : In c l) by (apply in_rev; rewrite E; now left).
  rewrite Forall_forall in H. specialize (H c I).
  unfold plain_char in H.
  destruct (Ascii.eqb c pad_char); [|reflexivity].
  rewrite andb_false_r in H. discriminate.
Qed.

Lemma strip_padding_encoding (bs : list ascii) :
  strip_padding (body bs ++ padding (List.length bs)) = body bs.
Proof.
  pose proof (body_plain bs) as P.
  unfold strip_padding.
  destruct (shape bs) as [k [[_ E] | [[_ E] | [_ E]]]]; rewrite E.
  - rewrite app_nil_r. now rewrite (drop_last_pad_plain _ P).
  - change [pad_char; pad_char] with ([pad_char] ++ [pad_char])%list.
    rewrite app_assoc, drop_last_pad_snoc, drop_last_pad_snoc. reflexivity.
  - rewrite drop_last_pad_snoc. now rewrite (drop_last_pad_plain _ P).
Qed.

Lemma encoding_length (bs : list ascii) :
  Nat.modulo (List.length (body bs ++ padding (List.length bs))) 4 = 0.
Proof.
  rewrite length_app.
  destruct (shape bs) as [k [[L E] | [[L E] | [L E]]]]; rewrite L, E; cbn [List.length].
  - rewrite Nat.add_0_r. apply Nat.Div0.mod_mul.
  - replace (2 + k * 4 + 2) with (S k * 4) by lia. apply Nat.Div0.mod_mul.
  - replace (3 + k * 4 + 1) with (S k * 4) by lia. apply Nat.Div0.mod_mul.
Qed.

Lemma body_length (bs : list ascii) :
  Nat.eqb (Nat.modulo (List.length (body bs)) 4) 1 = false.
Proof.
  destruct (shape bs) as [k [[L _] | [[L _] | [L _]]]]; rewrite L.
  - now rewrite Nat.Div0.mod_mul.
  - now rewrite Nat.Div0.mod_add.
  - now rewrite Nat.Div0.mod_add.
Qed.

Lemma encoding_no_whitespace (bs : list ascii) :
  Forall (fun c => negb (is_ascii_whitespace c) = true)
    (body bs ++ padding (List.length bs)).
Proof.
  apply Forall_app. split.
  - eapply Forall_impl; [|apply body_plain].
    intros c H. unfold plain_char in H.
    destruct (is_ascii_whitespace c); [discriminate | reflexivity].
  - destruct (shape bs) as [k [[_ E] | [[_ E] | [_ E]]]]; rewrite E;
      repeat constructor.
Qed.

(** Decoding inverts encoding on every byte string. *)
Lemma decode_encode (s : string) : decode (encode s) = Some s.
Proof.
  unfold decode, encode. fold (body (list_ascii_of_string s)).
  rewrite list_ascii_of_string_of_list_ascii.
  rewrite (filter_all _ _ (encoding_no_whitespace _)).
  rewrite encoding_length. cbn [Nat.eqb].
  rewrite strip_padding_encoding, body_length.
  unfold body. rewrite (sextets_of_chars _ (encode_sextets_bound _)).
  now rewrite decode_encode_sextets, string_of_list_ascii_of_string.
Qed.

(** An encoding holds no comma, so it survives [split(',')] in one piece. *)
Lemma encode_no_comma (s : string) :
  Forall (fun c => Ascii.eqb c ","%char = false) (list_ascii_of_string (encode s)).
Proof.
  unfold encode. fold (body (list_ascii_of_string s)).
  rewrite list_ascii_of_string_of_list_ascii.
  apply Forall_app. split.
  - eapply Forall_impl; [|apply body_plain].
    intros c H. unfold plain_char in H.
    destruct (Ascii.eqb c ","%char); [|reflexivity].
    rewrite andb_false_r in H. discriminate.
  - destruct (shape (list_ascii_of_string s)) as [k [[_ E] | [[_ E] | [_ E]]]];
      rewrite E; repeat constructor.
Qed.

Example base64_sample_1 : encode "Man" = "TWFu".
Proof. reflexivity. Qed.
Example base64_sample_2 : encode "Ma" = "TWE=".
Proof. reflexivity. Qed.
Example base64_sample_3 : encode "M" = "TQ==".
Proof. reflexivity. Qed.
Example base64_sample_4 : encode "light work." = "bGlnaHQgd29yay4=".
Proof. reflexivity. Qed.
Example base64_sample_5 : decode "bGlnaHQgd29yay4=" = Some "light work.".
Proof. reflexivity. Qed.
Example base64_sample_6 : decode "bGlnaHQgd29y ay4" = Some "light work.".
Proof. reflexivity. Qed.
Example base64_sample_7 : decode "undefined" = None.
Proof. reflexivity. Qed.
Example base64_sample_8 : decode "TQ" = Some "M".
Proof. reflexivity. Qed.
Example base64_sample_9 : decode "TQ=" = None.
Proof. reflexivity. Qed.

End Base64Facts.

(** ** The client's decoding rule *)

Module ClientFacts.

Import Js Client.

Lemma split_acc_no_sep (sep : ascii) (l cur : list ascii) :
  Forall (fun c => Ascii.eqb c sep = false) l ->
  split_acc sep cur l = [string_of_list_ascii (rev cur ++ l)].
Proof.
  intros H. revert cur.
  induction H as [| c l Hc _ IH]; intros cur; cbn [split_acc].
  - now rewrite app_nil_r.
  - rewrite Hc, IH. cbn [rev]. now rewrite <- app_assoc.
Qed.

(** Decoding a [data:] URI built the way the server builds it gives the
    encoded text back (texts are byte strings here, see the conventions). *)
Lemma chart_of_data_uri (text : string) :
  chart_of ("data:text/plain;base64," ++ Base64.encode text) = Returned text.
Proof.
  pose proof (Base64Facts.encode_no_comma text) as NC.
  pose proof (Base64Facts.decode_encode text) as DE.
  revert NC DE. generalize (Base64.encode text). intros p NC DE.
  unfold chart_of, startsWith, split. cbn.
  rewrite (split_acc_no_sep _ _ _ NC). cbn.
  rewrite string_of_list_ascii_of_string.
  unfold Base64.atob. now rewrite DE.
Qed.

(** Anything that does not start with [data:] is passed through. *)
Lemma chart_of_raw (url : string) :
  startsWith url "data:" = false -> chart_of url = Returned url.
Proof. intros H. unfold chart_of. now rewrite H. Qed.

End ClientFacts.

(** ** Running the handler *)

Module ServerFacts.

Import Js Wire Server Outcomes.

Lemma get_read (v : JsValue) (k : string) :
  get v k = if nullish v then Thrown TypeError else Returned (read v k).
Proof.
  destruct v; cbn; try reflexivity.
  now destruct (own props k).
Qed.

Lemma get_returned (v x : JsValue) (k : string) :
  get v k = Returned x -> nullish v = false /\ x = read v k.
Proof.
  rewrite get_read. destruct (nullish v); [discriminate|].
  intros H. injection H as <-. now split.
Qed.

Lemma get_thrown (v : JsValue) (k : string) (e : Exn) :
  get v k = Thrown e -> nullish v = true /\ e = TypeError.
Proof.
  rewrite get_read. destruct (nullish v); [|discriminate].
  intros H. injection H as <-. now split.
Qed.

Ltac run_block :=
  unfold try_block, destructure, bind, lift, ret, res_status, res_json, sleep.

(** *** The five paths through the [try] block *)

Lemma block_no_body (body : JsValue) :
  nullish body = true -> try_block body fresh = (Thrown TypeError, working 0).
Proof.
  intros N. run_block. rewrite !get_read, N. reflexivity.
Qed.

Lemma block_rejected (body code : JsValue) :
  get body "inputCode" = Returned code -> truthy code = false ->
  try_block body fresh = (Returned tt, rejected).
Proof.
  intros G T. apply get_returned in G as [N ->].
  run_block. rewrite !get_read, N. rewrite T. reflexivity.
Qed.

Lemma block_no_options (body code opts : JsValue) :
  get body "inputCode" = Returned code -> truthy code = true ->
  get body "options" = Returned opts -> nullish opts = true ->
  try_block body fresh = (Thrown TypeError, working 2000).
Proof.
  intros G T GO NO.
  apply get_returned in G as [N ->]. apply get_returned in GO as [_ ->].
  run_block. rewrite !get_read, N. rewrite T. cbn [negb].
  rewrite !get_read, NO. reflexivity.
Qed.

Lemma block_bad_key (body code opts : JsValue) (e : Exn) :
  get body "inputCode" = Returned code -> truthy code = true ->
  get body "options" = Returned opts -> nullish opts = false ->
  toPropertyKey (read opts "outputFormat") = Thrown e ->
  try_block body fresh = (Thrown e, working 2000).
Proof.
  intros G T GO NO K.
  apply get_returned in G as [N ->]. apply get_returned in GO as [_ ->].
  run_block. rewrite !get_read, N. rewrite T. cbn [negb].
  rewrite !get_read, NO. unfold get_computed. rewrite K. reflexivity.
Qed.

Lemma block_succeeded (body code opts : JsValue) (key : string) :
  get body "inputCode" = Returned code -> truthy code = true ->
  get body "options" = Returned opts -> nullish opts = false ->
  toPropertyKey (read opts "outputFormat") = Returned key ->
  try_block body fresh =
    (Returned tt,
     succeeded (read mockSchemas key)
       (truthy (read opts "suggestAPI")) (truthy (read opts "generateERD"))).
Proof.
  intros G T GO NO K.
  apply get_returned in G as [N ->]. apply get_returned in GO as [_ ->].
  run_block. rewrite !get_read, N. rewrite T. cbn [negb].
  rewrite !get_read, NO. unfold get_computed. rewrite K.
  rewrite get_read. cbn [nullish mockSchemas].
  unfold succeeded, response_object, generateERDiagram, data_uri.
  destruct (truthy (read (read body "options") "suggestAPI"));
    destruct (truthy (read (read body "options") "generateERD")); reflexivity.
Qed.

(** Every request takes one of them. *)
Lemma block_cases (body : JsValue) :
  (exists n e, try_block body fresh = (Thrown e, working n))
  \/ try_block body fresh = (Returned tt, rejected)
  \/ (exists schema routes diagram,
        try_block body fresh = (Returned tt, succeeded schema routes diagram)).
Proof.
  destruct (nullish body) eqn:N.
  { left. exists 0, TypeError. now apply block_no_body. }
  assert (G : get body "inputCode" = Returned (read body "inputCode"))
    by (now rewrite get_read, N).
  assert (GO : get body "options" = Returned (read body "options"))
    by (now rewrite get_read, N).
  destruct (truthy (read body "inputCode")) eqn:T.
  2:{ right. left. now apply (block_rejected _ _ G). }
  destruct (nullish (read body "options")) eqn:NO.
  { left. exists 2000, TypeError. now apply (block_no_options _ _ _ G T GO). }
  destruct (toPropertyKey (read (read body "options") "outputFormat")) as [key | e] eqn:K.
  - right. right. do 3 eexists. now apply (block_succeeded _ _ _ _ G T GO NO K).
  - left. exists 2000, e. now apply (block_bad_key _ _ _ _ G T GO NO K).
Qed.

(** *** The handler around it *)

Lemma serve_returned (body : JsValue) (w : World) :
  try_block body fresh = (Returned tt, w) -> serve body = w.
Proof.
  intros H. unfold serve, handleGenerateSchema, try_catch. now rewrite H.
Qed.

Lemma serve_thrown (body : JsValue) (e : Exn) (n : nat) :
  try_block body fresh = (Thrown e, working n) -> serve body = failed n e.
Proof.
  intros H. unfold serve, handleGenerateSchema, try_catch. now rewrite H.
Qed.

Lemma serve_cases (body : JsValue) :
  (exists n e, serve body = failed n e)
  \/ serve body = rejected
  \/ (exists schema routes diagram, serve body = succeeded schema routes diagram).
Proof.
  destruct (block_cases body) as [(n & e & H) | [H | (s & r & d & H)]].
  - left. exists n, e. now apply serve_thrown.
  - right. left. now apply serve_returned.
  - right. right. exists s, r, d. now apply serve_returned.
Qed.

(** The handler answers every request, once. *)
Lemma one_response (body : JsValue) : exists r, sent (serve body) = [r].
Proof.
  destruct (serve_cases body) as [(n & e & H) | [H | (s & r & d & H)]];
    rewrite H; eexists; reflexivity.
Qed.

(** *** What a success response carries *)

Lemma reply_schema (schema : JsValue) (routes diagram : bool) :
  field (reply schema routes diagram) "schema" =
    match schema with
    | JUndefined | JFun _ => None
    | _ => Some (wire schema)
    end.
Proof. destruct routes, diagram, schema; reflexivity. Qed.

Lemma reply_explanation (schema : JsValue) (routes diagram : bool) :
  field (reply schema routes diagram) "explanation" = Some (JStr mockExplanation).
Proof. destruct routes, diagram, schema; reflexivity. Qed.

Lemma reply_apiRoutes (schema : JsValue) (routes diagram : bool) :
  field (reply schema routes diagram) "apiRoutes" =
    if routes then Some (JStr mockAPIRoutes) else None.
Proof. destruct routes, diagram, schema; reflexivity. Qed.

Lemma reply_erdImageUrl (schema : JsValue) (routes diagram : bool) :
  field (reply schema routes diagram) "erdImageUrl" =
    if diagram then Some (JStr data_uri) else None.
Proof. destruct routes, diagram, schema; reflexivity. Qed.

Lemma response_succeeded (body schema : JsValue) (routes diagram : bool) :
  serve body = succeeded schema routes diagram ->
  response body = Some (200, reply schema routes diagram).
Proof. intros H. unfold response. now rewrite H. Qed.

Lemma response_failed (body : JsValue) (n : nat) (e : Exn) :
  serve body = failed n e ->
  response body = Some (500, error_body "Failed to generate schema").
Proof. intros H. unfold response. now rewrite H. Qed.

Lemma response_rejected (body : JsValue) :
  serve body = rejected ->
  response body = Some (400, error_body "Input code is required").
Proof. intros H. unfold response. now rewrite H. Qed.

Lemma truthy_text (s : string) : truthy (JStr s) = true <-> s <> EmptyString.
Proof.
  cbn. rewrite negb_true_iff. apply String.eqb_neq.
Qed.

Lemma mockSchemas_known (f : OutputFormat) :
  read mockSchemas (OutputFormat_tag f) = JStr (canned f).
Proof. destruct f; reflexivity. Qed.

(** A well-typed request with content always succeeds. *)
Lemma serve_typed (r : SchemaGenerationRequest) :
  inputCode r <> EmptyString ->
  serve (body_of r) =
    succeeded (JStr (canned (outputFormat (options r))))
      (suggestAPI (options r)) (generateERD (options r)).
Proof.
  destruct r as [code kind [format database routes diagram]].
  cbn [inputCode options outputFormat suggestAPI generateERD].
  intros H. apply truthy_text in H.
  apply serve_returned.
  rewrite <- mockSchemas_known.
  apply (block_succeeded _ (JStr code)
           (JObj [ ("outputFormat", JStr (OutputFormat_tag format));
                   ("databaseType", JStr (DatabaseType_tag database));
                   ("suggestAPI", JBool routes);
                   ("generateERD", JBool diagram) ]));
    (reflexivity || assumption).
Qed.

End ServerFacts.

(** ** The endpoint contract *)

Import ServerFacts.

(** C1. A request with non-empty content whose output format is one of the
    four known tags is answered 200 with exactly the canned schema text of
    that tag, whatever the content, the input kind and the database type
    are (the body is otherwise arbitrary). *)
Theorem known_format_returns_canned_schema
  (body opts : JsValue) (code : string) (f : OutputFormat) :
  get body "inputCode" = Returned (JStr code) ->
  code <> EmptyString ->
  get body "options" = Returned opts ->
  get opts "outputFormat" = Returned (JStr (OutputFormat_tag f)) ->
  exists resp,
    response body = Some (200, resp)
    /\ field resp "schema" = Some (JStr (canned f)).
Proof.
  intros G C GO GF.
  apply truthy_text in C.
  apply get_returned in GF as [NO E].
  assert (K : toPropertyKey (read opts "outputFormat") = Returned (OutputFormat_tag f))
    by (now rewrite <- E).
  pose proof (block_succeeded _ _ _ _ G C GO NO K) as B.
  apply serve_returned, response_succeeded in B.
  eexists. split; [exact B|].
  rewrite reply_schema, mockSchemas_known. reflexivity.
Qed.

Lemma known_format_returns_canned_schema_witness :
  get (body_of request_sql) "inputCode" = Returned (JStr "<div>x</div>")
  /\ "<div>x</div>" <> EmptyString
  /\ get (body_of request_sql) "options" = Returned (options_of "sql" true true)
  /\ get (options_of "sql" true true) "outputFormat" = Returned (JStr (OutputFormat_tag of_sql))
  /\ exists resp,
       response (body_of request_sql) = Some (200, resp)
       /\ field resp "schema" = Some (JStr (canned of_sql)).
Proof.
  split; [reflexivity|]. split; [discriminate|].
  split; [reflexivity|]. split; [reflexivity|].
  apply (known_format_returns_canned_schema
           (body_of request_sql) (options_of "sql" true true) "<div>x</div>" of_sql);
    [reflexivity | discriminate | reflexivity | reflexivity].
Defined.

(** C2. The response is a function of the three options alone: two requests
    with content that read the same output format, the same routes flag and
    the same diagram flag get the same response (status, schema, routes,
    explanation and diagram payload, hence the same decoded diagram text),
    after the same delay, whatever else they hold.  Taking the same request
    twice gives idempotence. *)
Theorem response_depends_only_on_options (b1 b2 c1 c2 o1 o2 : JsValue) :
  get b1 "inputCode" = Returned c1 -> truthy c1 = true ->
  get b2 "inputCode" = Returned c2 -> truthy c2 = true ->
  get b1 "options" = Returned o1 ->
  get b2 "options" = Returned o2 ->
  get o1 "outputFormat" = get o2 "outputFormat" ->
  get o1 "suggestAPI" = get o2 "suggestAPI" ->
  get o1 "generateERD" = get o2 "generateERD" ->
  serve b1 = serve b2
  /\ exists r, response b1 = Some r /\ response b2 = Some r.
Proof.
  intros G1 T1 G2 T2 GO1 GO2 EF ER ED.
  assert (S : serve b1 = serve b2).
  { destruct (nullish o1) eqn:N1.
    - assert (N2 : nullish o2 = true).
      { rewrite (get_read o1), N1 in EF. symmetry in EF.
        now apply get_thrown in EF. }
      rewrite (serve_thrown _ _ _ (block_no_options _ _ _ G1 T1 GO1 N1)).
      rewrite (serve_thrown _ _ _ (block_no_options _ _ _ G2 T2 GO2 N2)).
      reflexivity.
    - rewrite (get_read o1), N1 in EF, ER, ED.
      symmetry in EF, ER, ED.
      apply get_returned in EF as [N2 EF].
      apply get_returned in ER as [_ ER].
      apply get_returned in ED as [_ ED].
      destruct (toPropertyKey (read o1 "outputFormat")) as [key | e] eqn:K1.
      + assert (K2 : toPropertyKey (read o2 "outputFormat") = Returned key)
          by (now rewrite <- EF).
        rewrite (serve_returned _ _ (block_succeeded _ _ _ _ G1 T1 GO1 N1 K1)).
        rewrite (serve_returned _ _ (block_succeeded _ _ _ _ G2 T2 GO2 N2 K2)).
        now rewrite ER, ED.
      + assert (K2 : toPropertyKey (read o2 "outputFormat") = Thrown e)
          by (now rewrite <- EF).
        rewrite (serve_thrown _ _ _ (block_bad_key _ _ _ _ G1 T1 GO1 N1 K1)).
        rewrite (serve_thrown _ _ _ (block_bad_key _ _ _ _ G2 T2 GO2 N2 K2)).
        reflexivity. }
  split; [exact S|].
  destruct (one_response b1) as [r R].
  exists r. unfold response. rewrite <- S, R. now split.
Qed.

Lemma response_depends_only_on_options_witness :
  request_mongodb_a <> request_mongodb_b
  /\ serve request_mongodb_a = serve request_mongodb_b
  /\ exists r, response request_mongodb_a = Some r /\ response request_mongodb_b = Some r.
Proof.
  split; [discriminate|].
  apply (response_depends_only_on_options
           request_mongodb_a request_mongodb_b
           (JStr "<form><input name=email></form>") (JStr "https://figma.com/file/abc")
           (JObj [ ("outputFormat", JStr "mongodb"); ("databaseType", JStr "mongodb");
                   ("suggestAPI", JBool true); ("generateERD", JBool true) ])
           (JObj [ ("outputFormat", JStr "mongodb"); ("databaseType", JStr "mysql");
                   ("suggestAPI", JBool true); ("generateERD", JBool true) ]));
    reflexivity.
Defined.

(** C3. A request whose content is the empty string or is absent is answered
    400 with the validation message and nothing else: the one response
    written carries no generation field, and no delay was spent. *)
Theorem empty_input_is_rejected (body code : JsValue) :
  get body "inputCode" = Returned code ->
  code = JStr EmptyString \/ code = JUndefined ->
  exists resp,
    sent (serve body) = [(400, resp)]
    /\ response body = Some (400, resp)
    /\ field resp "error" = Some (JStr "Input code is required")
    /\ (forall k, In k generation_fields -> field resp k = None)
    /\ elapsed_ms (serve body) = 0.
Proof.
  intros G E.
  assert (T : truthy code = false) by (destruct E; subst; reflexivity).
  pose proof (serve_returned _ _ (block_rejected _ _ G T)) as S.
  exists (error_body "Input code is required").
  rewrite (response_rejected _ S), S.
  repeat split.
  intros k [<- | [<- | [<- | [<- | []]]]]; reflexivity.
Qed.

Lemma empty_input_is_rejected_witness :
  get (request_with (JStr EmptyString) (options_of "prisma" true true)) "inputCode"
    = Returned (JStr EmptyString)
  /\ exists resp,
       sent (serve (request_with (JStr EmptyString) (options_of "prisma" true true)))
         = [(400, resp)]
       /\ response (request_with (JStr EmptyString) (options_of "prisma" true true))
          = Some (400, resp)
       /\ field resp "error" = Some (JStr "Input code is required")
       /\ (forall k, In k generation_fields -> field resp k = None)
       /\ elapsed_ms (serve (request_with (JStr EmptyString) (options_of "prisma" true true)))
          = 0.
Proof.
  split; [reflexivity|].
  apply (empty_input_is_rejected
           (request_with (JStr EmptyString) (options_of "prisma" true true))
           (JStr EmptyString));
    [reflexivity | left; reflexivity].
Defined.

(** C4. A well-typed request with content is answered 200, and the response
    has an [apiRoutes] member exactly when [suggestAPI] is true; when it is
    there it is the canned route listing, verbatim. *)
Theorem routes_iff_requested (r : SchemaGenerationRequest) :
  inputCode r <> EmptyString ->
  exists resp,
    response (body_of r) = Some (200, resp)
    /\ (field resp "apiRoutes" <> None <-> suggestAPI (options r) = true)
    /\ (forall v, field resp "apiRoutes" = Some v -> v = JStr mockAPIRoutes).
Proof.
  intros H.
  pose proof (response_succeeded _ _ _ _ (serve_typed r H)) as R.
  eexists. split; [exact R|].
  rewrite reply_apiRoutes.
  destruct (suggestAPI (options r)); split.
  - split; [reflexivity | discriminate].
  - intros v E. now injection E as <-.
  - split; [intros N; now elim N | discriminate].
  - discriminate.
Qed.

Lemma routes_iff_requested_witness :
  inputCode request_sql <> EmptyString
  /\ exists resp,
       response (body_of request_sql) = Some (200, resp)
       /\ (field resp "apiRoutes" <> None <-> suggestAPI (options request_sql) = true)
       /\ (forall v, field resp "apiRoutes" = Some v -> v = JStr mockAPIRoutes).
Proof.
  split; [discriminate|].
  apply (routes_iff_requested request_sql). discriminate.
Defined.

Lemma erDiagram_shape :
  erDiagram_text <> EmptyString
  /\ Diagram.has_entity_block (Diagram.lines erDiagram_text) = true
  /\ Diagram.has_relationship (Diagram.lines erDiagram_text) = true.
Proof.
  split; [discriminate | split; vm_compute; reflexivity].
Qed.

(** C5. A well-typed request with content is answered 200, and the response
    has an [erdImageUrl] member exactly when [generateERD] is true.  When it
    is there, it is the [data:] prefix followed by a payload whose base64
    decoding is one fixed text, the same for every output format and
    database type: the generator ignores both.  That text is not empty and
    holds an entity block and a relationship line. *)
Theorem diagram_iff_requested (r : SchemaGenerationRequest) :
  inputCode r <> EmptyString ->
  exists resp,
    response (body_of r) = Some (200, resp)
    /\ (field resp "erdImageUrl" <> None <-> generateERD (options r) = true)
    /\ (forall v, field resp "erdImageUrl" = Some v ->
          exists payload,
            v = JStr ("data:text/plain;base64," ++ payload)
            /\ Base64.decode payload = Some erDiagram_text)
    /\ (forall format database, generateERDiagram format database = erDiagram_text)
    /\ erDiagram_text <> EmptyString
    /\ Diagram.has_entity_block (Diagram.lines erDiagram_text) = true
    /\ Diagram.has_relationship (Diagram.lines erDiagram_text) = true.
Proof.
  intros H.
  pose proof (response_succeeded _ _ _ _ (serve_typed r H)) as R.
  eexists. split; [exact R|].
  rewrite reply_erdImageUrl.
  split; [|split; [|split; [reflexivity | exact erDiagram_shape]]].
  - destruct (generateERD (options r)).
    + split; [reflexivity | discriminate].
    + split; [intros N; now elim N | discriminate].
  - intros v E. destruct (generateERD (options r)); [|discriminate].
    injection E as <-. exists (Base64.encode erDiagram_text).
    split; [reflexivity | apply Base64Facts.decode_encode].
Qed.

Lemma diagram_iff_requested_witness :
  inputCode request_sql <> EmptyString
  /\ exists resp,
       response (body_of request_sql) = Some (200, resp)
       /\ (field resp "erdImageUrl" <> None <-> generateERD (options request_sql) = true)
       /\ (forall v, field resp "erdImageUrl" = Some v ->
             exists payload,
               v = JStr ("data:text/plain;base64," ++ payload)
               /\ Base64.decode payload = Some erDiagram_text)
       /\ (forall format database, generateERDiagram format database = erDiagram_text)
       /\ erDiagram_text <> EmptyString
       /\ Diagram.has_entity_block (Diagram.lines erDiagram_text) = true
       /\ Diagram.has_relationship (Diagram.lines erDiagram_text) = true.
Proof.
  split; [discriminate|].
  apply (diagram_iff_requested request_sql). discriminate.
Defined.

(** The server's texts are 7-bit, so reading them as byte strings loses
    nothing under UTF-8 encoding or the Latin-1 result of [atob]. *)
Lemma texts_are_ascii :
  forallb ascii_text
    [schema_prisma; schema_sql; schema_mongodb; schema_firebase;
     mockAPIRoutes; mockExplanation; erDiagram_text] = true.
Proof. vm_compute. reflexivity. Qed.

(** C6. Whatever the request, if the response carries an [erdImageUrl], the
    client's rule (a value starting with [data:] is split at the comma and
    its second part base64-decoded, any other value is passed through)
    turns it back into exactly the text the diagram generator produced. *)
Theorem diagram_round_trip (body resp v : JsValue) (status : nat) :
  response body = Some (status, resp) ->
  field resp "erdImageUrl" = Some v ->
  exists url,
    v = JStr url
    /\ startsWith url "data:" = true
    /\ forall format database,
         Client.chart_of url = Returned (generateERDiagram format database).
Proof.
  intros R F.
  destruct (serve_cases body) as [(n & e & S) | [S | (s & rt & d & S)]].
  - rewrite (response_failed _ _ _ S) in R. injection R as <- <-. discriminate.
  - rewrite (response_rejected _ S) in R. injection R as <- <-. discriminate.
  - rewrite (response_succeeded _ _ _ _ S) in R. injection R as <- <-.
    rewrite reply_erdImageUrl in F. destruct d; [|discriminate].
    injection F as <-. exists data_uri.
    split; [reflexivity|]. split; [reflexivity|].
    intros format database. apply ClientFacts.chart_of_data_uri.
Qed.

Lemma diagram_round_trip_witness :
  exists resp,
    response (body_of request_sql) = Some (200, resp)
    /\ field resp "erdImageUrl" = Some (JStr data_uri)
    /\ exists url,
         JStr data_uri = JStr url
         /\ startsWith url "data:" = true
         /\ forall format database,
              Client.chart_of url = Returned (generateERDiagram format database).
Proof.
  exists (reply (JStr schema_sql) true true).
  split; [reflexivity|]. split; [reflexivity|].
  apply (diagram_round_trip (body_of request_sql)
           (reply (JStr schema_sql) true true) (JStr data_uri) 200);
    reflexivity.
Defined.

(** *** Output formats outside the table *)

(** The claim C7 fails on the handler: a request with content and the
    unknown format [graphql] is not refused; it is answered 200, with the
    explanation and without any schema. *)
Lemma unknown_format_is_answered_200 :
  get request_graphql "inputCode" = Returned (JStr "<div>x</div>")
  /\ get (options_of "graphql" false false) "outputFormat" = Returned (JStr "graphql")
  /\ (forall f, "graphql" <> OutputFormat_tag f)
  /\ response request_graphql = Some (200, JObj [("explanation", JStr mockExplanation)])
  /\ ~ (exists resp, response request_graphql = Some (400, resp)).
Proof.
  split; [reflexivity|]. split; [reflexivity|].
  split; [intros f; destruct f; discriminate|].
  split; [reflexivity|].
  intros [resp H]. discriminate H.
Qed.

Lemma mockSchemas_unknown (fmt : string) :
  (forall f, fmt <> OutputFormat_tag f) ->
  read mockSchemas fmt = object_prototype_get fmt.
Proof.
  intros U. unfold read, mockSchemas. cbn [own].
  destruct (String.eqb_spec "prisma" fmt) as [E | _]; [now elim (U of_prisma)|].
  destruct (String.eqb_spec "sql" fmt) as [E | _]; [now elim (U of_sql)|].
  destruct (String.eqb_spec "mongodb" fmt) as [E | _]; [now elim (U of_mongodb)|].
  destruct (String.eqb_spec "firebase" fmt) as [E | _]; [now elim (U of_firebase)|].
  reflexivity.
Qed.

(** C7, as the handler has it.  The output format is never validated: a
    request with content whose format is a string outside the four tags is
    answered 200 with the explanation, and the response holds no schema
    text; the [schema] member is absent altogether unless the format names
    [__proto__]. *)
Theorem unknown_format_succeeds_without_schema
  (body opts : JsValue) (code fmt : string) :
  get body "inputCode" = Returned (JStr code) ->
  code <> EmptyString ->
  get body "options" = Returned opts ->
  get opts "outputFormat" = Returned (JStr fmt) ->
  (forall f, fmt <> OutputFormat_tag f) ->
  exists resp,
    response body = Some (200, resp)
    /\ field resp "explanation" = Some (JStr mockExplanation)
    /\ (forall s, field resp "schema" <> Some (JStr s))
    /\ (fmt <> "__proto__" -> field resp "schema" = None).
Proof.
  intros G C GO GF U.
  apply truthy_text in C.
  apply get_returned in GF as [NO E].
  assert (K : toPropertyKey (read opts "outputFormat") = Returned fmt)
    by (now rewrite <- E).
  pose proof (block_succeeded _ _ _ _ G C GO NO K) as B.
  apply serve_returned, response_succeeded in B.
  eexists. split; [exact B|].
  rewrite reply_explanation, reply_schema, (mockSchemas_unknown fmt U).
  split; [reflexivity|].
  unfold object_prototype_get.
  destruct (existsb (String.eqb fmt) object_prototype_methods).
  - split; [discriminate | reflexivity].
  - destruct (String.eqb_spec fmt "__proto__") as [P | P].
    + split; [discriminate | intros N; now elim N].
    + split; [discriminate | reflexivity].
Qed.

Lemma unknown_format_succeeds_without_schema_witness :
  exists resp,
    response request_graphql = Some (200, resp)
    /\ field resp "explanation" = Some (JStr mockExplanation)
    /\ (forall s, field resp "schema" <> Some (JStr s))
    /\ ("graphql" <> "__proto__" -> field resp "schema" = None).
Proof.
  apply (unknown_format_succeeds_without_schema
           request_graphql (options_of "graphql" false false) "<div>x</div>" "graphql");
    [reflexivity | discriminate | reflexivity | reflexivity
    | intros f; destruct f; discriminate].
Defined.

(** ** The submission form *)

Module FormFacts.

Import Client.

Lemma disabled_while_generating (st : State) :
  isGenerating st = true -> submit_disabled st = true.
Proof. intros H. unfold submit_disabled. now rewrite H. Qed.

Lemma disabled_when_both_buffers_empty (st : State) :
  Client.inputCode st = EmptyString -> figmaUrl st = EmptyString ->
  submit_disabled st = true.
Proof.
  intros H1 H2. unfold submit_disabled. rewrite H1, H2. apply orb_true_r.
Qed.

(** The button looks at both buffers at once, not at the selected one. *)
Lemma enabled_iff (st : State) :
  submit_disabled st = false <->
  isGenerating st = false
  /\ (Client.inputCode st <> EmptyString \/ figmaUrl st <> EmptyString).
Proof.
  unfold submit_disabled. cbn [truthy]. rewrite !negb_involutive.
  rewrite orb_false_iff, andb_false_iff, !String.eqb_neq. tauto.
Qed.

(** While a submission is in flight the button is disabled, and the flag is
    cleared when [handleGenerate] is done, whatever the exchange gave. *)
Lemma disabled_in_flight (st : State) :
  submit_disabled (setIsGenerating true st) = true.
Proof. reflexivity. Qed.

Lemma handleGenerate_clears_flag
  (exchange : Wire.SchemaGenerationRequest -> option Js.JsValue) (st : State) :
  isGenerating (handleGenerate exchange st) = false.
Proof. reflexivity. Qed.

(** A failed exchange leaves the result as it was. *)
Lemma handleGenerate_failed_exchange (st : State) :
  result (handleGenerate (fun _ => None) st) = result st.
Proof. reflexivity. Qed.

End FormFacts.

(** C8. The form at a state its own events reach: the selected kind's
    content is empty and nothing is in flight, yet the button is enabled, a
    click sends a request whose [inputCode] is empty, and the server answers
    it 400. *)
Theorem submit_enabled_with_empty_selected_content :
  stale_buffer_state = Client.after stale_buffer_events
  /\ Client.selectedInputType stale_buffer_state = it_figma
  /\ Client.figmaUrl stale_buffer_state = EmptyString
  /\ Client.selected_content stale_buffer_state = EmptyString
  /\ Client.isGenerating stale_buffer_state = false
  /\ Client.submit_disabled stale_buffer_state = false
  /\ exists r,
       Client.click stale_buffer_state = Some r
       /\ inputCode r = EmptyString
       /\ response (body_of r)
          = Some (400, JObj [("error", JStr "Input code is required")]).
Proof.
  repeat (split; [reflexivity|]).
  eexists. split; [reflexivity|]. split; reflexivity.
Qed.

(** *** Failures *)

(** C9. Whenever the [try] block throws, nothing has been written at that
    point, and the handler then writes exactly one response: status 500 with
    the generic message and none of the generation fields. *)
Theorem failure_is_all_or_nothing (body : JsValue) (e : Exn) (w : World) :
  try_block body fresh = (Thrown e, w) ->
  sent w = []
  /\ sent (serve body) = [(500, JObj [("error", JStr "Failed to generate schema")])]
  /\ response body = Some (500, JObj [("error", JStr "Failed to generate schema")])
  /\ (forall k, In k generation_fields ->
        field (JObj [("error", JStr "Failed to generate schema")]) k = None).
Proof.
  intros H.
  assert (W : exists n, w = working n).
  { destruct (block_cases body) as [(n & e' & B) | [B | (s & r & d & B)]];
      rewrite B in H; try discriminate.
    injection H as _ <-. now exists n. }
  destruct W as [n ->].
  pose proof (serve_thrown _ _ _ H) as S.
  split; [reflexivity|]. split; [now rewrite S|].
  split; [exact (response_failed _ _ _ S)|].
  intros k [<- | [<- | [<- | [<- | []]]]]; reflexivity.
Qed.

Lemma failure_is_all_or_nothing_witness :
  try_block JUndefined fresh = (Thrown TypeError, working 0)
  /\ sent (working 0) = []
  /\ sent (serve JUndefined) = [(500, JObj [("error", JStr "Failed to generate schema")])]
  /\ response JUndefined = Some (500, JObj [("error", JStr "Failed to generate schema")])
  /\ (forall k, In k generation_fields ->
        field (JObj [("error", JStr "Failed to generate schema")]) k = None).
Proof.
  split; [reflexivity|].
  apply (failure_is_all_or_nothing JUndefined TypeError (working 0)). reflexivity.
Defined.

(** The claim C10 fails on the handler where [options] is a non-object other
    than [null]: reading a member of the number 5 throws nothing, so the
    request is answered 200, with the explanation alone. *)
Lemma numeric_options_is_answered_200 :
  get request_numeric_options "inputCode" = Returned (JStr "<div>x</div>")
  /\ get request_numeric_options "options" = Returned (JNum "5")
  /\ is_object (JNum "5") = false
  /\ response request_numeric_options
     = Some (200, JObj [("explanation", JStr mockExplanation)])
  /\ ~ (exists resp, response request_numeric_options = Some (500, resp)).
Proof.
  split; [reflexivity|]. split; [reflexivity|]. split; [reflexivity|].
  split; [reflexivity|].
  intros [resp H]. discriminate H.
Qed.

Lemma status_400_iff (body : JsValue) :
  (exists resp, response body = Some (400, resp))
  <-> exists code, get body "inputCode" = Returned code /\ truthy code = false.
Proof.
  split.
  - intros [resp R].
    destruct (nullish body) eqn:N.
    { rewrite (response_failed _ _ _ (serve_thrown _ _ _ (block_no_body _ N))) in R.
      discriminate. }
    assert (G : get body "inputCode" = Returned (read body "inputCode"))
      by (now rewrite get_read, N).
    assert (GO : get body "options" = Returned (read body "options"))
      by (now rewrite get_read, N).
    destruct (truthy (read body "inputCode")) eqn:T; [|eauto].
    exfalso.
    destruct (nullish (read body "options")) eqn:NO.
    { rewrite (response_failed _ _ _
                 (serve_thrown _ _ _ (block_no_options _ _ _ G T GO NO))) in R.
      discriminate. }
    destruct (toPropertyKey (read (read body "options") "outputFormat"))
      as [key | e] eqn:K.
    + rewrite (response_succeeded _ _ _ _
                 (serve_returned _ _ (block_succeeded _ _ _ _ G T GO NO K))) in R.
      discriminate.
    + rewrite (response_failed _ _ _
                 (serve_thrown _ _ _ (block_bad_key _ _ _ _ G T GO NO K))) in R.
      discriminate.
  - intros (code & G & T). eexists.
    exact (response_rejected _ (serve_returned _ _ (block_rejected _ _ G T))).
Qed.

(** C10, as the handler has it.  With content present and [options] missing
    or [null], the request is not refused with 400: reading
    [options.outputFormat] throws after the delay has been spent, and the one
    response is the 500 with the generic message.  Status 400 is written
    exactly when [inputCode] reads falsy. *)
Theorem missing_options_is_internal_error (body code opts : JsValue) :
  get body "inputCode" = Returned code ->
  truthy code = true ->
  get body "options" = Returned opts ->
  nullish opts = true ->
  serve body =
    {| statusCode := 500;
       sent := [(500, JObj [("error", JStr "Failed to generate schema")])];
       elapsed_ms := 2000;
       console := [("Schema generation error:", TypeError)] |}
  /\ try_block body fresh = (Thrown TypeError, working 2000)
  /\ ~ (exists resp, response body = Some (400, resp))
  /\ (forall b,
        (exists resp, response b = Some (400, resp))
        <-> exists c, get b "inputCode" = Returned c /\ truthy c = false).
Proof.
  intros G T GO NO.
  pose proof (block_no_options _ _ _ G T GO NO) as B.
  pose proof (serve_thrown _ _ _ B) as S.
  split; [exact S|]. split; [exact B|].
  split; [|exact status_400_iff].
  intros [resp R]. rewrite (response_failed _ _ _ S) in R. discriminate.
Qed.

Lemma missing_options_is_internal_error_witness :
  get request_without_options "options" = Returned JUndefined
  /\ serve request_without_options =
       {| statusCode := 500;
          sent := [(500, JObj [("error", JStr "Failed to generate schema")])];
          elapsed_ms := 2000;
          console := [("Schema generation error:", TypeError)] |}.
Proof.
  split; [reflexivity|].
  apply (missing_options_is_internal_error
           request_without_options (JStr "<div>x</div>") JUndefined);
    reflexivity.
Defined.

(** ** Further properties of the handler *)

Module HandlerFacts.

Import Js Wire Server Outcomes ServerFacts.

(** The five paths, each with the condition that selects it. *)
Lemma serve_classified (body : JsValue) :
  (nullish body = true /\ serve body = failed 0 TypeError)
  \/ (exists code,
        get body "inputCode" = Returned code /\ truthy code = false
        /\ serve body = rejected)
  \/ (exists code opts,
        get body "inputCode" = Returned code /\ truthy code = true
        /\ get body "options" = Returned opts /\ nullish opts = true
        /\ serve body = failed 2000 TypeError)
  \/ (exists code opts e,
        get body "inputCode" = Returned code /\ truthy code = true
        /\ get body "options" = Returned opts /\ nullish opts = false
        /\ toPropertyKey (read opts "outputFormat") = Thrown e
        /\ serve body = failed 2000 e)
  \/ (exists code opts key,
        get body "inputCode" = Returned code /\ truthy code = true
        /\ get body "options" = Returned opts /\ nullish opts = false
        /\ toPropertyKey (read opts "outputFormat") = Returned key
        /\ serve body =
             succeeded (read mockSchemas key)
               (truthy (read opts "suggestAPI")) (truthy (read opts "generateERD"))).
Proof.
  destruct (nullish body) eqn:N.
  { left. split; [reflexivity|]. now apply serve_thrown, block_no_body. }
  right.
  assert (G : get body "inputCode" = Returned (read body "inputCode"))
    by (now rewrite get_read, N).
  assert (GO : get body "options" = Returned (read body "options"))
    by (now rewrite get_read, N).
  destruct (truthy (read body "inputCode")) eqn:T.
  2:{ left. eexists. repeat (split; [eassumption|]).
      apply serve_returned. now apply (block_rejected _ _ G). }
  right.
  destruct (nullish (read body "options")) eqn:NO.
  { left. do 2 eexists. repeat (split; [eassumption|]).
    apply serve_thrown. now apply (block_no_options _ _ _ G T GO). }
  right.
  destruct (toPropertyKey (read (read body "options") "outputFormat"))
    as [key | e] eqn:K.
  - right. do 3 eexists. repeat (split; [eassumption|]).
    apply serve_returned. now apply (block_succeeded _ _ _ _ G T GO NO K).
  - left. do 3 eexists. repeat (split; [eassumption|]).
    apply serve_thrown. now apply (block_bad_key _ _ _ _ G T GO NO K).
Qed.

(** The success object as it is serialised, member by member. *)
Lemma reply_shape (schema : JsValue) (routes diagram : bool) :
  reply schema routes diagram =
    JObj (schema_member schema
          ++ [("explanation", JStr mockExplanation)]
          ++ (if routes then [("apiRoutes", JStr mockAPIRoutes)] else [])
          ++ (if diagram then [("erdImageUrl", JStr data_uri)] else []))%list.
Proof. destruct routes, diagram, schema; reflexivity. Qed.

Lemma reply_members (schema : JsValue) (routes diagram : bool) (k : string) :
  field (reply schema routes diagram) k <> None -> In k generation_fields.
Proof.
  rewrite reply_shape. unfold generation_fields, schema_member.
  destruct routes, diagram, schema; cbn [app field own];
    repeat match goal with
      | |- context [String.eqb ?a k] =>
          destruct (String.eqb_spec a k) as [<- | _]; [intros _; cbn; tauto|]
      end;
    intros H; now elim H.
Qed.

Lemma reply_no_error (schema : JsValue) (routes diagram : bool) :
  field (reply schema routes diagram) "error" = None.
Proof. destruct routes, diagram, schema; reflexivity. Qed.

(** Every response other than a 200 is an object holding a message. *)
Lemma response_is_error_object (body resp : JsValue) (status : nat) :
  response body = Some (status, resp) ->
  status <> 200 ->
  exists message, resp = JObj [("error", JStr message)].
Proof.
  intros R N.
  destruct (serve_cases body) as [(n & e & S) | [S | (s & r & d & S)]].
  - rewrite (response_failed _ _ _ S) in R. injection R as _ <-. now eexists.
  - rewrite (response_rejected _ S) in R. injection R as _ <-. now eexists.
  - rewrite (response_succeeded _ _ _ _ S) in R. injection R as <- _. now elim N.
Qed.

End HandlerFacts.

Import HandlerFacts.

(** X1. Whatever the body, the handler writes exactly one response; its
    status is the status code left on the response object and is one of 200,
    400 and 500. *)
Theorem handler_answers_exactly_once (body : JsValue) :
  exists status resp,
    sent (serve body) = [(status, resp)]
    /\ statusCode (serve body) = status
    /\ (status = 200 \/ status = 400 \/ status = 500).
Proof.
  destruct (serve_cases body) as [(n & e & S) | [S | (s & r & d & S)]];
    rewrite S; do 2 eexists; (split; [reflexivity|]); split;
    try reflexivity; auto.
Qed.

(** X2. The artificial delay is spent exactly on the requests that pass the
    content check: 2000 ms when [inputCode] reads truthy, also when the
    request then fails, and none when it reads falsy or the body cannot be
    read at all. *)
Theorem delay_follows_validation (body : JsValue) :
  elapsed_ms (serve body) =
    match get body "inputCode" with
    | Returned code => if truthy code then 2000 else 0
    | Thrown _ => 0
    end.
Proof.
  destruct (serve_classified body)
    as [[N S] | [(c & G & T & S) | [(c & o & G & T & _ & _ & S)
       | [(c & o & e & G & T & _ & _ & _ & S) | (c & o & k & G & T & _ & _ & _ & S)]]]];
    rewrite S; try (rewrite G, T; reflexivity).
  rewrite get_read, N. reflexivity.
Qed.

(** X3. The handler answers 200 exactly when [inputCode] reads truthy,
    [options] is neither missing nor [null], and what [options.outputFormat]
    reads converts to a property key; the key need not name a schema. *)
Theorem succeeds_iff (body : JsValue) :
  (exists resp, response body = Some (200, resp))
  <-> exists code opts fmt key,
        get body "inputCode" = Returned code /\ truthy code = true
        /\ get body "options" = Returned opts
        /\ get opts "outputFormat" = Returned fmt
        /\ toPropertyKey fmt = Returned key.
Proof.
  split.
  - intros [resp R].
    destruct (serve_classified body)
      as [[N S] | [(c & G & T & S) | [(c & o & G & T & GO & NO & S)
         | [(c & o & e & G & T & GO & NO & K & S)
           | (c & o & k & G & T & GO & NO & K & S)]]]].
    + rewrite (response_failed _ _ _ S) in R. discriminate.
    + rewrite (response_rejected _ S) in R. discriminate.
    + rewrite (response_failed _ _ _ S) in R. discriminate.
    + rewrite (response_failed _ _ _ S) in R. discriminate.
    + exists c, o, (read o "outputFormat"), k.
      repeat (split; [assumption|]). split; [|assumption].
      now rewrite get_read, NO.
  - intros (c & o & fmt & k & G & T & GO & GF & K).
    apply get_returned in GF as [NO ->].
    eexists.
    exact (response_succeeded _ _ _ _
             (serve_returned _ _ (block_succeeded _ _ _ _ G T GO NO K))).
Qed.

(** X4. The handler answers 500 exactly when the body is missing or [null],
    or the content check passed and then either [options] is missing or
    [null] or the output format does not convert to a property key; and
    these are exactly the requests for which an error line is logged. *)
Theorem fails_iff (body : JsValue) :
  ((exists resp, response body = Some (500, resp))
   <-> nullish body = true
       \/ exists code opts,
            get body "inputCode" = Returned code /\ truthy code = true
            /\ get body "options" = Returned opts
            /\ (nullish opts = true
                \/ exists fmt e,
                     get opts "outputFormat" = Returned fmt
                     /\ toPropertyKey fmt = Thrown e))
  /\ ((exists resp, response body = Some (500, resp))
      <-> exists e, console (serve body) = [("Schema generation error:", e)]).
Proof.
  destruct (serve_classified body)
    as [[N S] | [(c & G & T & S) | [(c & o & G & T & GO & NO & S)
       | [(c & o & e & G & T & GO & NO & K & S)
         | (c & o & k & G & T & GO & NO & K & S)]]]].
  - split; (split; [intros _ | intros _; eexists; exact (response_failed _ _ _ S)]).
    + now left.
    + rewrite S. now exists TypeError.
  - assert (R := response_rejected _ S).
    split; split.
    + intros [resp H]. rewrite R in H. discriminate.
    + intros [N | (c' & o & G' & T' & _)].
      * rewrite get_read, N in G. discriminate.
      * rewrite G in G'. injection G' as <-. congruence.
    + intros [resp H]. rewrite R in H. discriminate.
    + intros [e H]. rewrite S in H. discriminate.
  - split; (split; [intros _ | intros _; eexists; exact (response_failed _ _ _ S)]).
    + right. exists c, o. repeat (split; [assumption|]). now left.
    + rewrite S. now exists TypeError.
  - split; (split; [intros _ | intros _; eexists; exact (response_failed _ _ _ S)]).
    + right. exists c, o. repeat (split; [assumption|]). right.
      exists (read o "outputFormat"), e. split; [|assumption].
      now rewrite get_read, NO.
    + rewrite S. now exists e.
  - assert (R := response_succeeded _ _ _ _ S).
    split; split.
    + intros [resp H]. rewrite R in H. discriminate.
    + intros [N | (c' & o' & G' & T' & GO' & [NO' | (fmt & e & GF & K')])].
      * rewrite get_read, N in G. discriminate.
      * rewrite GO in GO'. injection GO' as <-. congruence.
      * rewrite GO in GO'. injection GO' as <-.
        apply get_returned in GF as [_ ->]. congruence.
    + intros [resp H]. rewrite R in H. discriminate.
    + intros [e H]. rewrite S in H. discriminate.
Qed.

(** X5. A response is either a success or an error, never a mix: a 200
    response always carries the explanation, has no [error] member and no
    member outside the four generation fields; any other response is an
    object with the single member [error], a message. *)
Theorem response_is_success_or_error (body resp : JsValue) (status : nat) :
  response body = Some (status, resp) ->
  (status = 200
   /\ field resp "explanation" = Some (JStr mockExplanation)
   /\ field resp "error" = None
   /\ forall k, field resp k <> None -> In k generation_fields)
  \/ (status <> 200 /\ exists message, resp = JObj [("error", JStr message)]).
Proof.
  intros R.
  destruct (serve_cases body) as [(n & e & S) | [S | (s & r & d & S)]].
  - rewrite (response_failed _ _ _ S) in R. injection R as <- <-.
    right. split; [discriminate | now eexists].
  - rewrite (response_rejected _ S) in R. injection R as <- <-.
    right. split; [discriminate | now eexists].
  - rewrite (response_succeeded _ _ _ _ S) in R. injection R as <- <-.
    left. split; [reflexivity|]. split; [apply reply_explanation|].
    split; [apply reply_no_error | apply reply_members].
Qed.

Lemma response_is_success_or_error_witness :
  response request_without_options
    = Some (500, JObj [("error", JStr "Failed to generate schema")])
  /\ ((500 = 200
       /\ field (JObj [("error", JStr "Failed to generate schema")]) "explanation"
          = Some (JStr mockExplanation)
       /\ field (JObj [("error", JStr "Failed to generate schema")]) "error" = None
       /\ forall k,
            field (JObj [("error", JStr "Failed to generate schema")]) k <> None ->
            In k generation_fields)
      \/ (500 <> 200
          /\ exists message,
               JObj [("error", JStr "Failed to generate schema")]
               = JObj [("error", JStr message)])).
Proof.
  split; [reflexivity|].
  apply (response_is_success_or_error request_without_options
           (JObj [("error", JStr "Failed to generate schema")]) 500).
  reflexivity.
Defined.

(** X6. The two flags are read by truthiness, not as booleans: in a success
    response the routes are attached exactly when [options.suggestAPI] reads
    truthy and the diagram exactly when [options.generateERD] does, so the
    text [false] switches a flag on and the number 0 switches it off. *)
Theorem flags_are_read_by_truthiness
  (body resp opts routes diagram : JsValue) :
  response body = Some (200, resp) ->
  get body "options" = Returned opts ->
  get opts "suggestAPI" = Returned routes ->
  get opts "generateERD" = Returned diagram ->
  field resp "apiRoutes" = (if truthy routes then Some (JStr mockAPIRoutes) else None)
  /\ field resp "erdImageUrl"
     = (if truthy diagram
        then Some (JStr ("data:text/plain;base64," ++ Base64.encode erDiagram_text))
        else None).
Proof.
  intros R GO GR GD.
  apply get_returned in GR as [_ ->]. apply get_returned in GD as [_ ->].
  destruct (serve_classified body)
    as [[N S] | [(c & G & T & S) | [(c & o & G & T & GO' & NO & S)
       | [(c & o & e & G & T & GO' & NO & K & S)
         | (c & o & k & G & T & GO' & NO & K & S)]]]].
  - rewrite (response_failed _ _ _ S) in R. discriminate.
  - rewrite (response_rejected _ S) in R. discriminate.
  - rewrite (response_failed _ _ _ S) in R. discriminate.
  - rewrite (response_failed _ _ _ S) in R. discriminate.
  - rewrite GO in GO'. injection GO' as <-.
    rewrite (response_succeeded _ _ _ _ S) in R. injection R as <-.
    now rewrite reply_apiRoutes, reply_erdImageUrl.
Qed.

Lemma flags_are_read_by_truthiness_witness :
  exists resp,
    response request_text_flags = Some (200, resp)
    /\ field resp "apiRoutes" = Some (JStr mockAPIRoutes)
    /\ field resp "erdImageUrl" = None.
Proof.
  exists (reply (JStr schema_sql) true false).
  split; [reflexivity|].
  apply (flags_are_read_by_truthiness request_text_flags
           (reply (JStr schema_sql) true false)
           (JObj [ ("outputFormat", JStr "sql");
                   ("suggestAPI", JStr "false");
                   ("generateERD", JNum "0") ])
           (JStr "false") (JNum "0"));
    reflexivity.
Defined.

(** X7. The exact success body for a well-typed request with content: the
    schema of its format, the explanation, then the routes and the diagram
    URL where asked for, in this order and with no other member; nothing of
    the submitted content is echoed. *)
Theorem typed_success_body (r : SchemaGenerationRequest) :
  inputCode r <> EmptyString ->
  response (body_of r) =
    Some (200,
          JObj ([ ("schema", JStr (canned (outputFormat (options r))));
                  ("explanation", JStr mockExplanation) ]
                ++ (if suggestAPI (options r)
                    then [("apiRoutes", JStr mockAPIRoutes)] else [])
                ++ (if generateERD (options r)
                    then [("erdImageUrl",
                           JStr ("data:text/plain;base64,"
                                 ++ Base64.encode erDiagram_text))]
                    else []))%list).
Proof.
  intros H.
  rewrite (response_succeeded _ _ _ _ (serve_typed r H)), reply_shape.
  reflexivity.
Qed.

Lemma typed_success_body_witness :
  response (body_of request_sql) =
    Some (200,
          JObj [ ("schema", JStr schema_sql);
                 ("explanation", JStr mockExplanation);
                 ("apiRoutes", JStr mockAPIRoutes);
                 ("erdImageUrl",
                  JStr ("data:text/plain;base64," ++ Base64.encode erDiagram_text)) ]).
Proof.
  apply (typed_success_body request_sql). discriminate.
Defined.

(** X8. The schema is selected by the property key the output format
    converts to, not by the format being a string: any value whose key is a
    known tag, such as a one-element array holding the tag, selects that
    tag's schema. *)
Theorem format_is_converted_to_a_key
  (body code opts fmt : JsValue) (f : OutputFormat) :
  get body "inputCode" = Returned code ->
  truthy code = true ->
  get body "options" = Returned opts ->
  get opts "outputFormat" = Returned fmt ->
  toPropertyKey fmt = Returned (OutputFormat_tag f) ->
  exists resp,
    response body = Some (200, resp)
    /\ field resp "schema" = Some (JStr (canned f)).
Proof.
  intros G T GO GF K.
  apply get_returned in GF as [NO ->].
  pose proof (block_succeeded _ _ _ _ G T GO NO K) as B.
  apply serve_returned, response_succeeded in B.
  eexists. split; [exact B|].
  rewrite reply_schema, mockSchemas_known. reflexivity.
Qed.

Lemma format_is_converted_to_a_key_witness :
  toPropertyKey (JArr [JStr "sql"]) = Returned (OutputFormat_tag of_sql)
  /\ exists resp,
       response request_array_format = Some (200, resp)
       /\ field resp "schema" = Some (JStr (canned of_sql)).
Proof.
  split; [reflexivity|].
  apply (format_is_converted_to_a_key request_array_format
           (JStr "<div>x</div>")
           (JObj [ ("outputFormat", JArr [JStr "sql"]) ])
           (JArr [JStr "sql"]) of_sql);
    reflexivity.
Defined.

(** ** Further properties of the form and the panels *)

(** X9. The form sends a request with empty content exactly when nothing is
    in flight, the buffer of the selected kind is empty and the buffer of
    the other kind is not: an unused other buffer never lets an empty
    request through. *)
Theorem empty_request_iff_stale_buffer (st : Client.State) :
  (exists r, Client.click st = Some r /\ inputCode r = EmptyString)
  <-> Client.isGenerating st = false
      /\ Client.selected_content st = EmptyString
      /\ Page.other_content st <> EmptyString.
Proof.
  destruct st as [kind code url f d a g x busy res].
  unfold Client.click, Client.submit_disabled, Page.other_content,
    Client.payload, Client.selected_content.
  cbn [Client.isGenerating Client.inputCode Client.figmaUrl Client.selectedInputType
       Client.outputFormat Client.databaseType Client.suggestAPI Client.generateERD
       truthy].
  rewrite !negb_involutive.
  destruct busy; cbn [orb].
  { split; [intros (r & H & _); discriminate | intros (H & _); discriminate]. }
  destruct (String.eqb_spec code EmptyString) as [-> | C];
    destruct (String.eqb_spec url EmptyString) as [-> | U];
    cbn [andb]; destruct (Client.is_figma kind); split;
    first
      [ intros (r & H & E); first [ discriminate H | injection H as <- ];
        cbn [inputCode] in E; repeat split; congruence
      | intros (_ & E1 & E2); congruence
      | intros _; eexists; split; reflexivity ].
Qed.

(** X10. End to end.  From any form state whose selected kind has content,
    [handleGenerate] against the handler ends with the indicator cleared and
    the panels showing the canned schema of the selected format, the routes
    exactly when asked for, the decoded diagram text (which the diagram
    component hands to the renderer) exactly when asked for, and the
    explanation exactly when its switch is on. *)
Theorem generate_shows_the_canned_result (st : Client.State) :
  Client.selected_content st <> EmptyString ->
  let st' := Client.handleGenerate Page.via_server st in
  Client.isGenerating st' = false
  /\ Page.schema_panel (Page.render st')
     = Some (JStr (canned (Client.outputFormat st)))
  /\ Page.routes_panel (Page.render st')
     = (if Client.suggestAPI st then Page.Mounted (JStr mockAPIRoutes)
        else Page.Skipped JUndefined)
  /\ Page.erd_panel (Page.render st')
     = (if Client.generateERD st then Some (Returned erDiagram_text) else None)
  /\ Page.MermaidDiagram erDiagram_text = Some erDiagram_text
  /\ Page.explanation_card (Page.render st')
     = (if Client.showExplanation st then Some (Some (JStr mockExplanation))
        else None).
Proof.
  intros H st'.
  assert (R : Client.result st'
              = Some (reply (JStr (canned (Client.outputFormat st)))
                        (Client.suggestAPI st) (Client.generateERD st))).
  { subst st'. unfold Client.handleGenerate, Page.via_server.
    rewrite (response_succeeded _ _ _ _
               (serve_typed (Client.payload (Client.setIsGenerating true st)) H)).
    reflexivity. }
  assert (X : Client.showExplanation st' = Client.showExplanation st).
  { subst st'. unfold Client.handleGenerate.
    destruct (Page.via_server _); reflexivity. }
  split.
  { subst st'. unfold Client.handleGenerate.
    destruct (Page.via_server _); reflexivity. }
  unfold Page.render. rewrite R, X. unfold Page.result_member.
  rewrite reply_shape.
  pose proof (ClientFacts.chart_of_data_uri erDiagram_text) as D.
  fold data_uri in D.
  assert (TE : truthy (JStr mockExplanation) = true) by reflexivity.
  assert (TR : truthy (JStr mockAPIRoutes) = true) by reflexivity.
  assert (TS : truthy (JStr (canned (Client.outputFormat st))) = true)
    by (destruct (Client.outputFormat st); reflexivity).
  assert (TD : truthy (JStr data_uri) = true) by reflexivity.
  destruct (Client.suggestAPI st), (Client.generateERD st),
    (Client.showExplanation st);
    cbn [schema_member wire app get own String.eqb Ascii.eqb Bool.eqb
         Page.schema_panel Page.routes_panel Page.erd_panel Page.explanation_card
         object_prototype_get object_prototype_methods existsb orb];
    rewrite ?TE, ?TR, ?TS, ?TD;
    cbn [truthy Page.chart_prop];
    rewrite ?D;
    repeat (split; [reflexivity|]); reflexivity.
Qed.

Lemma generate_shows_the_canned_result_witness :
  Client.selected_content (Client.after [Client.EditInputCode "<div>x</div>"])
    <> EmptyString
  /\ Page.schema_panel
       (Page.render
          (Client.handleGenerate Page.via_server
             (Client.after [Client.EditInputCode "<div>x</div>"])))
     = Some (JStr schema_prisma).
Proof.
  split; [discriminate|].
  apply (generate_shows_the_canned_result
           (Client.after [Client.EditInputCode "<div>x</div>"])).
  discriminate.
Defined.

(** X11. An error reply is stored as the result but never shown: after any
    response that is not a 200, every panel is in its placeholder state, as
    it is before the first submission. *)
Theorem error_reply_shows_placeholders
  (body resp : JsValue) (status : nat) (st : Client.State) :
  response body = Some (status, resp) ->
  status <> 200 ->
  Client.result (Client.setResult resp st) = Some resp
  /\ Page.schema_panel (Page.render (Client.setResult resp st)) = None
  /\ Page.routes_panel (Page.render (Client.setResult resp st))
     = Page.Skipped JUndefined
  /\ Page.erd_panel (Page.render (Client.setResult resp st)) = None
  /\ Page.explanation_card (Page.render (Client.setResult resp st))
     = (if Client.showExplanation st then Some None else None).
Proof.
  intros R N.
  destruct (response_is_error_object body resp status R N) as [message ->].
  split; [reflexivity|].
  unfold Page.render. cbn.
  repeat split; reflexivity.
Qed.

Lemma error_reply_shows_placeholders_witness :
  response request_without_options
    = Some (500, JObj [("error", JStr "Failed to generate schema")])
  /\ Page.schema_panel
       (Page.render
          (Client.setResult (JObj [("error", JStr "Failed to generate schema")])
             Client.initial))
     = None.
Proof.
  split; [reflexivity|].
  apply (error_reply_shows_placeholders request_without_options
           (JObj [("error", JStr "Failed to generate schema")]) 500 Client.initial);
    [reflexivity | discriminate].
Defined.

(** X12. The encoding on the server and the decoding rule on the client are
    inverse on every 7-bit text, not only on the diagram the server holds
    today: wrapping the base64 of a text in the [data:] prefix and applying
    the client's rule gives the text back.  (Beyond 7 bits a text is no
    longer its own byte string, so the statement stops there.) *)
Theorem data_url_round_trip (text : string) :
  ascii_text text = true ->
  Client.chart_of ("data:text/plain;base64," ++ Base64.encode text) = Returned text.
Proof.
  intros _. apply ClientFacts.chart_of_data_uri.
Qed.

Lemma data_url_round_trip_witness :
  ascii_text "erDiagram" = true
  /\ Client.chart_of ("data:text/plain;base64," ++ Base64.encode "erDiagram")
     = Returned "erDiagram".
Proof.
  split; [reflexivity|].
  apply (data_url_round_trip "erDiagram"). reflexivity.
Defined.

(** X13. A value that starts with [data:] but holds no comma makes the
    client's rule throw: the second part of the split is [undefined], which
    [atob] rejects. *)
Theorem data_url_without_comma_throws (url : string) :
  startsWith url "data:" = true ->
  forallb (fun c => negb (Ascii.eqb c ","%char)) (list_ascii_of_string url) = true ->
  Client.chart_of url = Thrown InvalidCharacterError.
Proof.
  intros P C.
  assert (F : Forall (fun c => Ascii.eqb c ","%char = false) (list_ascii_of_string url)).
  { apply Forall_forall. intros c I.
    rewrite forallb_forall in C. specialize (C c I).
    now apply negb_true_iff in C. }
  unfold Client.chart_of. rewrite P. unfold split.
  rewrite (ClientFacts.split_acc_no_sep _ _ _ F).
  reflexivity.
Qed.

Lemma data_url_without_comma_throws_witness :
  startsWith "data:text/plain;base64" "data:" = true
  /\ Client.chart_of "data:text/plain;base64" = Thrown InvalidCharacterError.
Proof.
  split; [reflexivity|].
  apply (data_url_without_comma_throws "data:text/plain;base64"); reflexivity.
Defined.

Lemma serve_typed_empty (r : SchemaGenerationRequest) :
  inputCode r = EmptyString -> serve (body_of r) = rejected.
Proof.
  destruct r as [code kind opts]. cbn [inputCode]. intros ->.
  apply serve_returned. apply (block_rejected _ (JStr EmptyString)); reflexivity.
Qed.

(** X14. Submitting with the selected kind's content empty wipes the screen:
    the handler's 400 reply replaces whatever result was shown before, and
    since an error reply is never displayed every panel falls back to its
    placeholder. *)
Theorem empty_submission_clears_the_panels (st : Client.State) :
  Client.selected_content st = EmptyString ->
  let st' := Client.handleGenerate Page.via_server st in
  Client.result st' = Some (JObj [("error", JStr "Input code is required")])
  /\ Client.isGenerating st' = false
  /\ Page.schema_panel (Page.render st') = None
  /\ Page.routes_panel (Page.render st') = Page.Skipped JUndefined
  /\ Page.erd_panel (Page.render st') = None
  /\ Page.explanation_card (Page.render st')
     = (if Client.showExplanation st then Some None else None).
Proof.
  intros H st'. subst st'.
  unfold Client.handleGenerate, Page.via_server.
  rewrite (response_rejected _
             (serve_typed_empty (Client.payload (Client.setIsGenerating true st)) H)).
  destruct st as [kind code url f d a g x busy res].
  cbn. repeat (split; [reflexivity|]). reflexivity.
Qed.

Lemma empty_submission_clears_the_panels_witness :
  Client.selected_content stale_buffer_state = EmptyString
  /\ Client.result (Client.handleGenerate Page.via_server stale_buffer_state)
     = Some (JObj [("error", JStr "Input code is required")]).
Proof.
  split; [reflexivity|].
  apply (empty_submission_clears_the_panels stale_buffer_state). reflexivity.
Defined.
